(** * Dataroom: entry proxy, app middleware, magic links and rate limiting

    A shallow embedding of the request-routing and access-control layer of
    the repository:

    - [src/proxy.ts]                         -> module [Proxy]
    - the app middleware ([AppMiddleware])    -> module [App]
    - [src/lib/auth/admin-magic-link.ts]      -> module [AdminMagicLink]
    - [src/lib/emails/send-verification-request.ts] -> module [EmailLogin]
    - the domain middleware ([DomainMiddleware]) -> module [Domain]
    - [src/lib/auth/auth-options.ts] (callbacks) -> module [AuthOptions]
    - the Rollbar hooks ([checkIgnore], [onSendCallback]) -> module [Rollbar]
    - the rate limiter and the admin-magic-verify handler, whose sources
      are not part of the tree (only their tests are), are modelled from
      the specification in [RateLimiter] and [AdminMagicVerify].

    Strings.  A JavaScript string is modelled by a Rocq [string], the text
    in its UTF-8 encoding (the encoding in which [decodeURIComponent]
    delivers what it decodes).  The tests the code makes on ASCII
    characters ([startsWith], [includes], [split] on a separator, the
    character classes of the patterns, the removal of angle brackets and
    quotes) read the same on the encoded text.

    Built-ins that are taken as given.  [String.prototype.trim] and
    [String.prototype.toLowerCase] follow Unicode tables (white space
    beyond the ASCII range, case mappings of every script), and the URL
    parser behind [new URL] and the [pathname] setter rewrites what it is
    given.  None of these is reproduced: where the code calls one of
    them, the model takes the function as a parameter, and what is proved
    holds for whatever that function is.  The examples instantiate [trim]
    and [toLowerCase] with [Js.asciiTrim] and [Js.asciiToLowerCase], which
    are those functions on texts of ASCII characters, the only texts the
    examples use. *)

From Stdlib Require Import ZArith NArith Ascii String Bool List Lia.
From stdpp Require Import gmap strings list.

Local Open Scope Z_scope.

(* ===================================================================== *)
(** * JavaScript built-ins used by the code                               *)
(* ===================================================================== *)

Module Js.

(** A computation that either returns or throws. *)
Inductive result (A : Type) : Type :=
| Returns (a : A)
| Throws (e : string).
Arguments Returns {A} a.
Arguments Throws {A} e.

Definition bind {A B} (m : result A) (k : A -> result B) : result B :=
  match m with
  | Returns a => k a
  | Throws e => Throws e
  end.

Definition rmap {A B} (f : A -> B) (m : result A) : result B :=
  bind m (fun a => Returns (f a)).

(** Truthiness of a possibly missing string: [null], [undefined] and the
    empty string are falsy. *)
Definition truthy (o : option string) : bool :=
  match o with
  | Some s => negb (String.eqb s "")
  | None => false
  end.

(** [a || b] on strings. *)
Definition orElse (o : option string) (d : string) : string :=
  match o with
  | Some s => if String.eqb s "" then d else s
  | None => d
  end.

Definition code (c : ascii) : N := N_of_ascii c.

Definition inRange (lo hi : N) (c : ascii) : bool :=
  (lo <=? code c)%N && (code c <=? hi)%N.

Definition isDigit (c : ascii) : bool := inRange 48 57 c.
Definition isUpper (c : ascii) : bool := inRange 65 90 c.
Definition isLower (c : ascii) : bool := inRange 97 122 c.
Definition isAlnum (c : ascii) : bool := isLower c || isUpper c || isDigit c.

(** [s.startsWith(p)] *)
Definition startsWith (s p : string) : bool := String.prefix p s.

(** [s.includes(p)] *)
Fixpoint includes (s p : string) : bool :=
  String.prefix p s ||
  match s with
  | EmptyString => false
  | String _ r => includes r p
  end.

(** [s.endsWith(p)]: [p] is one of the tails of [s]. *)
Fixpoint endsWith (s p : string) : bool :=
  String.eqb s p ||
  match s with
  | EmptyString => false
  | String _ r => endsWith r p
  end.

(** [s.split(sep)[0]]: the text before the first [sep]. *)
Fixpoint splitFirst (sep : ascii) (s : string) : string :=
  match s with
  | EmptyString => EmptyString
  | String c r => if Ascii.eqb c sep then EmptyString else String c (splitFirst sep r)
  end.

(** ** [trim] and [toLowerCase] on ASCII texts

    What [String.prototype.trim] and [String.prototype.toLowerCase] do to
    a text made of ASCII characters only.  The code is not modelled with
    these two functions (it takes the built-ins as parameters); they
    instantiate the parameters in the examples. *)

(** White space and line terminators of the ASCII range. *)
Definition isSpace (c : ascii) : bool :=
  inRange 9 13 c || (code c =? 32)%N.

Fixpoint trimStart (s : string) : string :=
  match s with
  | EmptyString => EmptyString
  | String c r => if isSpace c then trimStart r else s
  end.

Fixpoint trimEnd (s : string) : string :=
  match s with
  | EmptyString => EmptyString
  | String c r =>
      let r' := trimEnd r in
      if isSpace c && String.eqb r' "" then EmptyString else String c r'
  end.

Definition asciiTrim (s : string) : string := trimEnd (trimStart s).

Definition lowerChar (c : ascii) : ascii :=
  if isUpper c then ascii_of_N (code c + 32) else c.

Fixpoint asciiToLowerCase (s : string) : string :=
  match s with
  | EmptyString => EmptyString
  | String c r => String (lowerChar c) (asciiToLowerCase r)
  end.

(** Removal of every character satisfying [p]: [s.replace(/[...]/g, '')]. *)
Fixpoint removeChars (p : ascii -> bool) (s : string) : string :=
  match s with
  | EmptyString => EmptyString
  | String c r => if p c then removeChars p r else String c (removeChars p r)
  end.

(** ** [decodeURIComponent]

    ECMA-262 [Decode] with an empty reserved set.  A [%XX] escape below
    0x80 yields that character.  A lead octet announces one to three
    continuation escapes; anything that is not the well-formed UTF-8
    encoding of a code point (a stray continuation octet, an overlong or
    surrogate encoding, a value above U+10FFFF, a truncated sequence, a
    non-escape where a continuation is due, a bad hex digit) throws
    [URIError]. *)

Definition hexVal (c : ascii) : option N :=
  if isDigit c then Some (code c - 48)%N
  else if inRange 65 70 c then Some (code c - 55)%N
  else if inRange 97 102 c then Some (code c - 87)%N
  else None.

Definition hexByte (h1 h2 : ascii) : option N :=
  match hexVal h1, hexVal h2 with
  | Some a, Some b => Some (16 * a + b)%N
  | _, _ => None
  end.

(** For a lead octet: the number of continuation octets and the bounds
    of the first of them. *)
Definition leadInfo (b : N) : option (nat * N * N) :=
  if ((194 <=? b) && (b <=? 223))%N then Some (1%nat, 128, 191)%N
  else if (b =? 224)%N then Some (2%nat, 160, 191)%N
  else if ((225 <=? b) && (b <=? 236))%N then Some (2%nat, 128, 191)%N
  else if (b =? 237)%N then Some (2%nat, 128, 159)%N
  else if ((238 <=? b) && (b <=? 239))%N then Some (2%nat, 128, 191)%N
  else if (b =? 240)%N then Some (3%nat, 144, 191)%N
  else if ((241 <=? b) && (b <=? 243))%N then Some (3%nat, 128, 191)%N
  else if (b =? 244)%N then Some (3%nat, 128, 143)%N
  else None.

Definition URIError : string := "URIError".

(** [decodeFrom k lo hi s]: [k] continuation octets are still due, the
    next of them within [lo..hi]. *)
Fixpoint decodeFrom (k : nat) (lo hi : N) (s : string) : result string :=
  match s with
  | EmptyString =>
      match k with
      | O => Returns EmptyString
      | S _ => Throws URIError
      end
  | String c r =>
      if Ascii.eqb c "%" then
        match r with
        | String h1 (String h2 r') =>
            match hexByte h1 h2 with
            | None => Throws URIError
            | Some b =>
                match k with
                | O =>
                    if (b <? 128)%N then
                      rmap (String (ascii_of_N b)) (decodeFrom O 128 191 r')
                    else
                      match leadInfo b with
                      | Some (k', lo', hi') =>
                          rmap (String (ascii_of_N b)) (decodeFrom k' lo' hi' r')
                      | None => Throws URIError
                      end
                | S k' =>
                    if ((lo <=? b) && (b <=? hi))%N then
                      rmap (String (ascii_of_N b)) (decodeFrom k' 128 191 r')
                    else Throws URIError
                end
            end
        | _ => Throws URIError
        end
      else
        match k with
        | O => rmap (String c) (decodeFrom O 128 191 r)
        | S _ => Throws URIError
        end
  end.

Definition decodeURIComponent (s : string) : result string :=
  decodeFrom O 128 191 s.

End Js.

#[global] Instance result_ret : MRet Js.result := @Js.Returns.
#[global] Instance result_bind : MBind Js.result :=
  fun A B k m => Js.bind m k.

(* ===================================================================== *)
(** * The request, as seen by the proxy and the middleware                *)
(* ===================================================================== *)

(** The parts of a [NextRequest] the code reads.  [search] is
    [req.nextUrl.search] (empty, or starting with a question mark) and
    [searchParams] the decoded pairs of [req.nextUrl.searchParams].
    [newURL reference] is [new URL(reference, req.url)], as the text of
    the URL that the constructor builds, and [None] when the constructor
    throws: the URL parser is taken as given. *)
Record Request : Type := {
  pathname : string;
  search : string;
  searchParams : list (string * string);
  host : option string;
  xForwardedFor : option string;
  xRealIp : option string;
  xClientIp : option string;
  newURL : string -> option string
}.

(** [req.headers.set("x-client-ip", ip)] *)
Definition setClientIp (ip : string) (req : Request) : Request :=
  {| pathname := pathname req; search := search req;
     searchParams := searchParams req; host := host req;
     xForwardedFor := xForwardedFor req; xRealIp := xRealIp req;
     xClientIp := Some ip; newURL := newURL req |}.

(** The same request without its client-IP-bearing headers. *)
Definition withoutIpHeaders (req : Request) : Request :=
  {| pathname := pathname req; search := search req;
     searchParams := searchParams req; host := host req;
     xForwardedFor := None; xRealIp := None;
     xClientIp := xClientIp req; newURL := newURL req |}.

(** [searchParams.get(k)] and [searchParams.has(k)] *)
Fixpoint paramGet (k : string) (ps : list (string * string)) : option string :=
  match ps with
  | [] => None
  | (k', v) :: r => if String.eqb k' k then Some v else paramGet k r
  end.

Definition paramHas (k : string) (ps : list (string * string)) : bool :=
  match paramGet k ps with
  | Some _ => true
  | None => false
  end.

(* ===================================================================== *)
(** * [src/proxy.ts]                                                      *)
(* ===================================================================== *)

Module Proxy.
Import Js.

(** [isAnalyticsPath]: the pattern [^\/ingest\/.*] only asks for the
    prefix, since [.*] also matches the empty string. *)
Definition isAnalyticsPath (path : string) : bool :=
  startsWith path "/ingest/".

(** Character class [[a-zA-Z0-9\-\.]]. *)
Definition isHostChar (c : ascii) : bool :=
  isAlnum c || Ascii.eqb c "-" || Ascii.eqb c ".".

(** After the first character of the first alternative:
    [[a-zA-Z0-9\-\.]*[a-zA-Z0-9]$]. *)
Fixpoint hostTail (s : string) : bool :=
  match s with
  | EmptyString => false
  | String c EmptyString => isAlnum c
  | String c r => isHostChar c && hostTail r
  end.

(** [hostPattern.test(s)] for
    [/^[a-zA-Z0-9][a-zA-Z0-9\-\.]*[a-zA-Z0-9]$|^[a-zA-Z0-9]$/]. *)
Definition hostPattern_test (s : string) : bool :=
  match s with
  | EmptyString => false
  | String c EmptyString => isAlnum c
  | String c r => isAlnum c && hostTail r
  end.

Definition validateHost (host : option string) : bool :=
  match host with
  | None => false
  | Some h =>
      if String.eqb h "" then false
      else
        let cleanHost := splitFirst ":" h in
        if (253 <? String.length cleanHost)%nat then false
        else if negb (hostPattern_test cleanHost) then false
        else true
  end.

(** Longest run of digits at the head of [s], and what follows it. *)
Fixpoint spanDigits (s : string) : nat * string :=
  match s with
  | EmptyString => (O, EmptyString)
  | String c r =>
      if isDigit c then
        let '(n, t) := spanDigits r in (S n, t)
      else (O, s)
  end.

(** One [\d{1,3}] group: the digits are followed by a non-digit (or the
    end), so the group has to take the whole run. *)
Definition digitGroup (s : string) : option string :=
  let '(n, t) := spanDigits s in
  if ((1 <=? n) && (n <=? 3))%nat then Some t else None.

(** One [(\d{1,3}\.)] group. *)
Definition dottedGroup (s : string) : option string :=
  match digitGroup s with
  | Some (String c t) => if Ascii.eqb c "." then Some t else None
  | _ => None
  end.

(** [/^(\d{1,3}\.){3}\d{1,3}$/.test(s)] *)
Definition ipv4Pattern_test (s : string) : bool :=
  match dottedGroup s with
  | Some s1 =>
      match dottedGroup s1 with
      | Some s2 =>
          match dottedGroup s2 with
          | Some s3 =>
              match digitGroup s3 with
              | Some EmptyString => true
              | _ => false
              end
          | None => false
          end
      | None => false
      end
  | None => false
  end.

Definition isIpv6Char (c : ascii) : bool :=
  inRange 97 102 c || inRange 65 70 c || isDigit c || Ascii.eqb c ":".

Fixpoint allChars (p : ascii -> bool) (s : string) : bool :=
  match s with
  | EmptyString => true
  | String c r => p c && allChars p r
  end.

(** [/^([a-fA-F0-9:]+)$/.test(s)] *)
Definition ipv6Pattern_test (s : string) : bool :=
  negb (String.eqb s "") && allChars isIpv6Char s.

(** What the proxy reads from its environment and from modules that are
    not part of the tree, and the built-in it calls without the model
    reproducing it.  [urlHostname u] is [new URL(u).hostname], [None]
    when the constructor throws; [trim] is [String.prototype.trim]. *)
Record Env : Type := {
  NODE_ENV : option string;
  NEXT_PUBLIC_PLATFORM_DOMAIN : option string;
  NEXTAUTH_URL : option string;
  urlHostname : string -> option string;
  isWebhookPath : option string -> bool;
  BLOCKED_PATHNAMES : list string;
  trim : string -> string
}.

(** [forwardedFor?.split(',')[0]?.trim() || realIP || null] *)
Definition clientIpCandidate (env : Env) (req : Request) : option string :=
  let first :=
    match xForwardedFor req with
    | Some f => Some (trim env (splitFirst "," f))
    | None => None
    end in
  if truthy first then first
  else if truthy (xRealIp req) then xRealIp req
  else None.

Definition validateClientIP (env : Env) (req : Request) : option string :=
  match clientIpCandidate env req with
  | Some ip =>
      if negb (ipv4Pattern_test ip) && negb (ipv6Pattern_test ip) then None
      else Some ip
  | None => None
  end.

(** ** [sanitizePath] *)

(** [path.replace(/\.{2,}/g, '')]: [dots] is the length of the run of
    dots read so far; a run of one dot is kept, a longer one dropped. *)
Definition flushDots (dots : nat) (s : string) : string :=
  match dots with
  | 1%nat => String "." s
  | _ => s
  end.

Fixpoint removeDotRuns (dots : nat) (s : string) : string :=
  match s with
  | EmptyString => flushDots dots EmptyString
  | String c r =>
      if Ascii.eqb c "." then removeDotRuns (S dots) r
      else flushDots dots (String c (removeDotRuns O r))
  end.

(** [s.replace(/\/+/g, '/')]: [after] tells that the previous character
    was a slash. *)
Fixpoint collapseSlashes (after : bool) (s : string) : string :=
  match s with
  | EmptyString => EmptyString
  | String c r =>
      if Ascii.eqb c "/" then
        if after then collapseSlashes true r
        else String c (collapseSlashes true r)
      else String c (collapseSlashes false r)
  end.

(** The character class of the last replacement: the two angle brackets,
    the apostrophe and the double quote (code 34). *)
Definition isMarkupChar (c : ascii) : bool :=
  Ascii.eqb c "<" || Ascii.eqb c ">" || Ascii.eqb c "'" || Ascii.eqb c "034".

Definition sanitizePath (path : string) : result string :=
  let sanitized := removeDotRuns O path in
  let sanitized := collapseSlashes false sanitized in
  decoded ← decodeURIComponent sanitized;
  Returns (removeChars isMarkupChar decoded).

(** ** [isCustomDomain] *)

Definition knownNonCustomPatterns : list string :=
  ["localhost"; ".vercel.app"; ".replit.app"; ".replit.dev"; ".repl.co"].

Definition TypeError : string := "TypeError".

Definition isCustomDomain (env : Env) (host : string) : result bool :=
  if bool_decide (NODE_ENV env = Some "development") then
    Returns (includes host ".local")
  else
    let platformDomain := orElse (NEXT_PUBLIC_PLATFORM_DOMAIN env) "fundroom.ai" in
    let cleanHost := splitFirst ":" host in
    if existsb (fun p => String.eqb cleanHost p || endsWith cleanHost p)
               knownNonCustomPatterns then Returns false
    else if String.eqb cleanHost platformDomain
            || String.eqb cleanHost ("www." +:+ platformDomain) then Returns false
    else if endsWith cleanHost ("." +:+ platformDomain) then Returns true
    else
      nextauthHost ←
        (if truthy (NEXTAUTH_URL env) then
           match urlHostname env (orElse (NEXTAUTH_URL env) "") with
           | Some h => Returns h
           | None => Throws TypeError
           end
         else Returns "");
      if negb (String.eqb nextauthHost "") && String.eqb cleanHost nextauthHost
      then Returns false
      else Returns true.

(** ** [escapePath] *)

(** The character class of [escapePath]: the fourteen syntax characters
    of a regular expression. *)
Definition isRegexMeta (c : ascii) : bool :=
  Ascii.eqb c "." || Ascii.eqb c "*" || Ascii.eqb c "+" || Ascii.eqb c "?"
  || Ascii.eqb c "^" || Ascii.eqb c "$" || Ascii.eqb c "{" || Ascii.eqb c "}"
  || Ascii.eqb c "(" || Ascii.eqb c ")" || Ascii.eqb c "|" || Ascii.eqb c "["
  || Ascii.eqb c "]" || Ascii.eqb c "092".

(** [path.replace(/[.*+?^${}()|[\]\\]/g, '\\$&')]: a backslash is put in
    front of every syntax character. *)
Fixpoint escapePath (path : string) : string :=
  match path with
  | EmptyString => EmptyString
  | String c r =>
      if isRegexMeta c then String "092" (String c (escapePath r))
      else String c (escapePath r)
  end.

(** The text a pattern stands for when it is made of ordinary characters
    and backslash-escaped syntax characters only; [None] for any other
    pattern (a bare syntax character, a backslash before an ordinary
    character or at the end). *)
Fixpoint literalOfPattern (pattern : string) : option string :=
  match pattern with
  | EmptyString => Some EmptyString
  | String c r =>
      if Ascii.eqb c "092" then
        match r with
        | String d r' =>
            if isRegexMeta d then option_map (String d) (literalOfPattern r')
            else None
        | EmptyString => None
        end
      else if isRegexMeta c then None
      else option_map (String c) (literalOfPattern r)
  end.

(** ** [proxy] *)

(** Where the proxy hands the request on to. *)
Inductive Downstream : Type :=
| ToPostHogMiddleware
| ToIncomingWebhookMiddleware
| ToDomainMiddleware
| ToAppMiddleware
| Rewrite404
| CSPResponse.

(** The proxy either answers with a JSON error itself
    ([createErrorResponse]) or dispatches the request, as it stands after
    the header update, to exactly one downstream handler. *)
Inductive Outcome : Type :=
| ErrorResponse (message : string) (status : Z)
| Dispatch (d : Downstream) (req : Request).

(** [escapePath] backslash-escapes every regular-expression
    metacharacter, so [new RegExp(escapePath(b)).test(path)] looks for [b]
    as a literal substring. *)
Definition isBlocked (env : Env) (path : string) : bool :=
  existsb (fun blockedPath => includes path blockedPath) (BLOCKED_PATHNAMES env).

(** The body of the [try] block. *)
Definition proxyBody (env : Env) (req : Request) : result Outcome :=
  path ← sanitizePath (pathname req);
  if negb (validateHost (host req)) then
    Returns (ErrorResponse "Invalid host header" 400)
  else
    let req' :=
      match validateClientIP env req with
      | Some clientIP => if truthy (Some clientIP) then setClientIp clientIP req else req
      | None => req
      end in
    if isAnalyticsPath path then Returns (Dispatch ToPostHogMiddleware req')
    else if isWebhookPath env (host req) then
      Returns (Dispatch ToIncomingWebhookMiddleware req')
    else
      custom ← isCustomDomain env (orElse (host req) "");
      if (custom : bool) then Returns (Dispatch ToDomainMiddleware req')
      else if negb (startsWith path "/view/")
              && negb (startsWith path "/verify")
              && negb (startsWith path "/unsubscribe")
      then Returns (Dispatch ToAppMiddleware req')
      else if startsWith path "/view/"
              && (isBlocked env path || includes path ".")
      then Returns (Dispatch Rewrite404 req')
      else Returns (Dispatch CSPResponse req').

(** [proxy]: whatever is thrown inside is turned into a 500. *)
Definition proxy (env : Env) (req : Request) : Outcome :=
  match proxyBody env req with
  | Returns o => o
  | Throws _ => ErrorResponse "Internal server error" 500
  end.

End Proxy.

(* ===================================================================== *)
(** * The app middleware ([AppMiddleware])                                *)
(* ===================================================================== *)

Module App.
Import Js.

(** The claims of the decoded session token that the middleware reads.
    [createdAt] is [new Date(token.createdAt).getTime()]: [None] when the
    claim is missing, empty or not a date. *)
Record Token : Type := {
  email : option string;
  role : option string;
  createdAt : option Z
}.

(** [Redirect target next] is
    [NextResponse.redirect(new URL(target, req.url))] for one of the
    literal targets of the code, with the [next] search parameter when
    one is set; [RedirectUrl url] is [NextResponse.redirect(url)] for a
    URL that the constructor built from a text taken from the request;
    [Next] is [NextResponse.next()]. *)
Inductive Response : Type :=
| Redirect (target : string) (next : option string)
| RedirectUrl (url : string)
| Next.

(** The middleware asks for the session token at most once; the request
    for it ([getToken], which decodes the session cookie) is kept visible
    as a node of the computation. *)
Inductive Eff (A : Type) : Type :=
| Ret (a : A)
| Raise (e : string)
| GetToken (k : option Token -> Eff A).
Arguments Ret {A} a.
Arguments Raise {A} e.
Arguments GetToken {A} k.

(** Running the middleware against what [getToken] decodes. *)
Fixpoint run {A} (decoded : option Token) (m : Eff A) : result A :=
  match m with
  | Ret a => Returns a
  | Raise e => Throws e
  | GetToken k => run decoded (k decoded)
  end.

(** How many times the session cookie is decoded along the run. *)
Fixpoint decodings {A} (decoded : option Token) (m : Eff A) : nat :=
  match m with
  | Ret _ => O
  | Raise _ => O
  | GetToken k => S (decodings decoded (k decoded))
  end.

Definition gpRoutes : list string :=
  ["/dashboard"; "/settings"; "/documents"; "/datarooms"; "/admin"; "/hub"].

Definition isPublicPage (path : string) : bool :=
  String.eqb path "/lp/onboard" || String.eqb path "/lp/login"
  || String.eqb path "/signup".

Definition isLpRoute (path : string) : bool := startsWith path "/lp/".

Definition isGpRoute (path : string) : bool :=
  negb (String.eqb path "/admin/login")
  && existsb (fun r => startsWith path r) gpRoutes.

Definition isLoginPage (path : string) : bool :=
  String.eqb path "/login" || String.eqb path "/admin/login"
  || String.eqb path "/lp/login".

Definition isAdminRoute (path : string) : bool :=
  startsWith path "/dashboard" || startsWith path "/settings"
  || startsWith path "/documents" || startsWith path "/datarooms".

(** [url.search ? `${path}${url.search}` : path] *)
Definition nextPathOf (req : Request) : string :=
  if String.eqb (search req) "" then pathname req
  else pathname req +:+ search req.

Definition userEmailOf (token : option Token) : option string :=
  match token with
  | Some t => email t
  | None => None
  end.

(** [(token?.role as string) || "LP"] *)
Definition userRoleOf (token : option Token) : string :=
  match token with
  | Some t => orElse (role t) "LP"
  | None => "LP"
  end.

Definition userCreatedAtOf (token : option Token) : option Z :=
  match token with
  | Some t => createdAt t
  | None => None
  end.

Definition TypeError : string := "TypeError".

(** [nextPath] after the loop check: a non-empty text containing
    [/login] is replaced by [null]. *)
Definition withoutLoginLoop (nextPath : option string) : option string :=
  match nextPath with
  | Some p =>
      if negb (String.eqb p "")
         && (includes p "/login" || includes p "/admin/login"
             || includes p "/lp/login")
      then None else Some p
  | None => None
  end.

(** [finalPath], the text handed to [new URL(finalPath, req.url)], for
    the value of [nextPath] before the loop check. *)
Definition finalPathOf (path : string) (nextPath : option string) : string :=
  let defaultRedirect :=
    if String.eqb path "/admin/login" then "/hub" else "/viewer-redirect" in
  orElse (withoutLoginLoop nextPath) defaultRedirect.

(** The branch for an authenticated user on a login page.  The redirect
    goes to the URL that [new URL(finalPath, req.url)] builds; when the
    constructor throws, so does the middleware. *)
Definition loginPageRedirect (req : Request) : Eff (option Response) :=
  let path := pathname req in
  let nextParam := paramGet "next" (searchParams req) in
  let continue (nextPath : option string) : Eff (option Response) :=
    match newURL req (finalPathOf path nextPath) with
    | Some url => Ret (Some (RedirectUrl url))
    | None => Raise TypeError
    end in
  if truthy nextParam then
    match decodeURIComponent (orElse nextParam "") with
    | Returns p => continue (Some p)
    | Throws e => Raise e
    end
  else continue None.

(** [AppMiddleware(req)], at clock reading [now] (milliseconds).  A
    result of [None] is the function ending without a [return]. *)
Definition AppMiddleware (now : Z) (req : Request) : Eff (option Response) :=
  let path := pathname req in
  if String.eqb path "/" then Ret (Some (Redirect "/login" None))
  else
    let isInvited := paramHas "invitation" (searchParams req) in
    GetToken (fun token =>
      let userEmail := userEmailOf token in
      let userRole := userRoleOf token in
      let userCreatedAt := userCreatedAtOf token in
      if isPublicPage path then Ret (Some Next)
      else if startsWith path "/view/" then Ret (Some Next)
      else if String.eqb path "/viewer-redirect" then Ret (Some Next)
      else if isLpRoute path then
        if negb (truthy userEmail) then
          Ret (Some (Redirect "/lp/login" (Some (nextPathOf req))))
        else if negb (String.eqb userRole "LP") && negb (String.eqb userRole "GP")
        then Ret (Some (Redirect "/viewer-redirect" None))
        else Ret (Some Next)
      else if isGpRoute path then
        if negb (truthy userEmail) then
          Ret (Some (Redirect "/admin/login" (Some (nextPathOf req))))
        else if String.eqb userRole "LP" then
          Ret (Some (Redirect "/viewer-portal" None))
        else Ret (Some Next)
      else if negb (truthy userEmail) && negb (isLoginPage path) then
        let loginPath := if isAdminRoute path then "/admin/login" else "/login" in
        Ret (Some (Redirect loginPath
                     (if negb (String.eqb path "/") then Some (nextPathOf req)
                      else None)))
      else if truthy userEmail
              && match userCreatedAt with
                 | Some created => (now - 10000 <? created)
                 | None => false
                 end
              && negb (String.eqb path "/welcome")
              && negb isInvited
      then Ret (Some (Redirect "/welcome" None))
      else if truthy userEmail && isLoginPage path then loginPageRedirect req
      else if truthy userEmail && String.eqb path "/viewer-portal" then Ret (Some Next)
      else Ret None).

End App.

(* ===================================================================== *)
(** * [src/lib/auth/admin-magic-link.ts]                                  *)
(* ===================================================================== *)

Module AdminMagicLink.
Import Js.

Definition ADMIN_MAGIC_LINK_EXPIRY_MINUTES : Z := 60.

(** A row of [prisma.verificationToken].  The [token] column is unique
    (the code looks rows up and deletes them by token alone), so the
    table is a finite map from tokens to the rest of the row.  [expires]
    is a time in milliseconds. *)
Record Row : Type := {
  identifier : string;
  expires : Z
}.

Abbreviation Table := (gmap string Row).

(** The link handed back by [createAdminMagicLink]: its base URL and the
    search parameters put on it. *)
Record MagicLink : Type := {
  linkBaseUrl : string;
  linkToken : string;
  linkEmail : string;
  linkRedirect : option string
}.

Section WithAdmins.

(** The built-ins [String.prototype.trim] and
    [String.prototype.toLowerCase]. *)
Variables trim toLowerCase : string -> string.

(** [isUserAdminAsync].  [false] also stands for the lookup failing: the
    surrounding [catch] gives the same answer then. *)
Variable isUserAdminAsync : string -> bool.

(** [email.trim().toLowerCase()] and
    [`admin-magic:${email.trim().toLowerCase()}`] *)
Definition normalize (email : string) : string := toLowerCase (trim email).
Definition identifierOf (email : string) : string :=
  "admin-magic:" +:+ normalize email.

(** [createAdminMagicLink], at clock reading [now] with [uuid] the value
    of [randomUUID()].  [create] fails on a token that is already in the
    table (unique column); the [catch] turns that into [null]. *)
Definition createAdminMagicLink (db : Table) (now : Z) (uuid : string)
    (email : string) (redirectPath : option string) (baseUrl : string)
  : Table * option (MagicLink * string) :=
  let normalizedEmail := normalize email in
  if negb (isUserAdminAsync normalizedEmail) then (db, None)
  else
    let token := uuid in
    let expires := now + ADMIN_MAGIC_LINK_EXPIRY_MINUTES * 60 * 1000 in
    match db !! token with
    | Some _ => (db, None)
    | None =>
        let db' := <[token := {| identifier := identifierOf email;
                                 expires := expires |}]> db in
        let link := {| linkBaseUrl := baseUrl; linkToken := token;
                       linkEmail := normalizedEmail;
                       linkRedirect := if truthy redirectPath then redirectPath
                                       else None |} in
        (db', Some (link, token))
    end.

(** [verifyAdminMagicLink], at clock reading [now]. *)
Definition verifyAdminMagicLink (db : Table) (now : Z)
    (token : string) (email : string) : Table * bool :=
  let normalizedEmail := normalize email in
  let identifier' := identifierOf email in
  if negb (isUserAdminAsync normalizedEmail) then (db, false)
  else
    match db !! token with
    | None => (db, false)
    | Some verification =>
        if negb (String.eqb (identifier verification) identifier') then (db, false)
        else if expires verification <? now then (delete token db, false)
        else (delete token db, true)
    end.

(** Calls made against the table, one after the other. *)
Inductive Call : Type :=
| Create (now : Z) (uuid : string) (email : string)
         (redirectPath : option string) (baseUrl : string)
| Verify (now : Z) (token : string) (email : string).

Definition step (db : Table) (c : Call) : Table :=
  match c with
  | Create now uuid email redirectPath baseUrl =>
      fst (createAdminMagicLink db now uuid email redirectPath baseUrl)
  | Verify now token email => fst (verifyAdminMagicLink db now token email)
  end.

Definition steps (db : Table) (cs : list Call) : Table :=
  fold_left step cs db.


(** Rows that are live at [now] under the identifier [ident]. *)
Definition liveRows (db : Table) (now : Z) (ident : string) : list (string * Row) :=
  filter (fun kv => identifier kv.2 = ident /\ now <= expires kv.2)
         (map_to_list db).

End WithAdmins.

End AdminMagicLink.

(* ===================================================================== *)
(** * [src/lib/emails/send-verification-request.ts]                       *)
(* ===================================================================== *)

Module EmailLogin.
Import Js.

(** A row of [prisma.magicLinkCallback]. *)
Record Row : Type := {
  identifier : string;
  token : string;
  callbackUrl : string;
  authTokenHash : string;
  expires : Z
}.

(** What the function takes from outside: the built-in
    [String.prototype.toLowerCase], whether [new URL(u)] accepts [u], and
    the [NEXTAUTH_URL] setting. *)
Record Env : Type := {
  toLowerCase : string -> string;
  urlParses : string -> bool;
  NEXTAUTH_URL : option string
}.

(** What one run of the function meets: the clock reading [Date.now()],
    the value of [crypto.randomBytes(32).toString("hex")], and how the
    awaited calls end.  [deleteManyError] and [createError] are [None]
    when the call resolves and the error when it rejects; [sendError] is
    the error thrown by what follows the [create] ([generateChecksum],
    the template, [sendEmail], none of them part of the tree), [None]
    when all of it goes through. *)
Record Run : Type := {
  now : Z;
  randomHex : string;
  deleteManyError : option string;
  createError : option string;
  sendError : option string
}.

(** The two calls the function makes against the table.  Each is one
    statement for the data store; nothing groups the two into one
    transaction. *)
Inductive DbCall : Type :=
| DeleteMany (ident : string)
| Create (row : Row).

(** [prisma.magicLinkCallback.deleteMany({ where: { identifier } })] *)
Definition deleteMany (ident : string) (table : list Row) : list Row :=
  filter (fun r => identifier r <> ident) table.

(** [prisma.magicLinkCallback.create({ data })] *)
Definition create (r : Row) (table : list Row) : list Row := table ++ [r].

Definition perform (table : list Row) (c : DbCall) : list Row :=
  match c with
  | DeleteMany ident => deleteMany ident table
  | Create row => create row table
  end.

(** The table after a series of calls, and every table the store goes
    through on the way. *)
Definition performAll (table : list Row) (calls : list DbCall) : list Row :=
  fold_left perform calls table.

Fixpoint tablesAlong (table : list Row) (calls : list DbCall) : list (list Row) :=
  match calls with
  | [] => []
  | c :: rest => perform table c :: tablesAlong (perform table c) rest
  end.

(** The two [new URL(...)] calls made before the table is touched: the
    callback URL, and [NEXTAUTH_URL] when it is set (the code reads an
    unset one as the text not-set and skips the call). *)
Definition urlsParse (env : Env) (url : string) : bool :=
  let nextauthUrl := orElse (NEXTAUTH_URL env) "not-set" in
  urlParses env url
  && (String.eqb nextauthUrl "not-set" || urlParses env nextauthUrl).

Definition TypeError : string := "TypeError".

(** [sendVerificationRequestEmail].  The function never reads the table:
    it is given by the calls it makes against it that take effect, in
    order, and by whether it returns or throws.  A call that rejects
    changes nothing and ends the function with its error. *)
Definition sendVerificationRequestEmail (env : Env) (run : Run)
    (email url : string) : list DbCall * result unit :=
  if negb (urlsParse env url) then ([], Throws TypeError)
  else
    let emailLower := toLowerCase env email in
    match deleteManyError run with
    | Some e => ([], Throws e)
    | None =>
        let purge := DeleteMany emailLower in
        let magicLinkToken := randomHex run in
        let expiresAt := now run + 30 * 60 * 1000 in
        match createError run with
        | Some e => ([purge], Throws e)
        | None =>
            let insert :=
              Create {| identifier := emailLower; token := magicLinkToken;
                        callbackUrl := url; authTokenHash := "";
                        expires := expiresAt |} in
            match sendError run with
            | Some e => ([purge; insert], Throws e)
            | None => ([purge; insert], Returns tt)
            end
        end
    end.

(** Number of rows stored under [ident]. *)
Definition rowsFor (ident : string) (table : list Row) : nat :=
  length (filter (fun r => identifier r = ident) table).

(** An issuance: what the run meets, the address and the callback URL;
    and the calls it makes against the table. *)
Definition Issuance : Type := Run * string * string.

Definition callsOf (env : Env) (i : Issuance) : list DbCall :=
  let '(run, email, url) := i in
  fst (sendVerificationRequestEmail env run email url).

(** Issuances that run one after the other: the calls of each come
    before the calls of the next. *)
Definition oneAfterAnother (env : Env) (issuances : list Issuance) : list DbCall :=
  flat_map (callsOf env) issuances.

(** Issuances that overlap: [Interleaved a b m] says that [m] takes the
    calls of [a] and of [b], each in its own order, in some order between
    them. *)
Inductive Interleaved : list DbCall -> list DbCall -> list DbCall -> Prop :=
| interleaved_nil : Interleaved [] [] []
| interleaved_left c a b m :
    Interleaved a b m -> Interleaved (c :: a) b (c :: m)
| interleaved_right c a b m :
    Interleaved a b m -> Interleaved a (c :: b) (c :: m).

End EmailLogin.

(* ===================================================================== *)
(** * The rate limiter ([lib/security/rate-limiter.ts])                   *)
(* ===================================================================== *)

Module RateLimiter.

(** Modelled from the spec: the configuration of a limiter, without its
    optional callback, [{windowMs, maxRequests, keyPrefix}]. *)
Record Config : Type := {
  windowMs : Z;
  maxRequests : Z;
  keyPrefix : string
}.

(** Modelled from the spec: the counter of a key, [{count, windowStart}]. *)
Record Counter : Type := {
  count : Z;
  windowStart : Z
}.

(** Modelled from the spec: a counter is keyed by the limiter's prefix,
    the client IP and the endpoint. *)
Abbreviation Key := (string * string * string)%type.
Abbreviation Store := (gmap (string * string * string) Counter).

(** Modelled from the spec: the three response headers. *)
Record Headers : Type := {
  X_RateLimit_Limit : Z;
  X_RateLimit_Remaining : Z;
  X_RateLimit_Reset : Z
}.

(** Modelled from the spec: the JSON body of a 429. *)
Record ErrorBody : Type := {
  error : string;
  message : string;
  retryAfter : Z
}.

(** Modelled from the spec: the audit-log entry written on a violation;
    the optional callback is called with its last two fields. *)
Record Violation : Type := {
  event : string;
  severity : string;
  ipAddress : string;
  endpoint : string
}.

(** Modelled from the spec: what the limiter answers. *)
Inductive Decision : Type :=
| Allowed (headers : Headers)
| Rejected (status : Z) (body : ErrorBody) (logged : Violation).

Definition isAllowed (d : Decision) : bool :=
  match d with
  | Allowed _ => true
  | Rejected _ _ _ => false
  end.

(** Modelled from the spec: seconds until [t], rounded up. *)
Definition secondsUntil (now t : Z) : Z := (t - now + 999) / 1000.

(** Modelled from the spec: the answer to a request at [now] that brought
    the counter of its key to [counted]: allowed when the count is at
    most [maxRequests], with the remaining allowance (never below zero)
    and the seconds to the end of the window; rejected with a 429
    otherwise. *)
Definition respond (cfg : Config) (counted : Counter) (now : Z)
    (ip url : string) : Decision :=
  let windowEnd := windowStart counted + windowMs cfg in
  if count counted <=? maxRequests cfg then
    Allowed {| X_RateLimit_Limit := maxRequests cfg;
                X_RateLimit_Remaining :=
                  Z.max 0 (maxRequests cfg - count counted);
                X_RateLimit_Reset := secondsUntil now windowEnd |}
  else
    Rejected 429
      {| error := "Too many requests";
         message := "Rate limit exceeded...";
         retryAfter := secondsUntil now windowEnd |}
      {| event := "RATE_LIMIT_EXCEEDED"; severity := "WARNING";
         ipAddress := ip; endpoint := url |}.

(** Modelled from the spec: the limiter returned by [createRateLimiter],
    whose source file is not in the tree.  The counter of the key is
    created on the first request of a window and reinitialised once more
    than [windowMs] has passed since the request that opened the window;
    the request is counted, and allowed when the new count is at most
    [maxRequests]. *)
Definition limiter (cfg : Config) (store : Store) (now : Z)
    (ip url : string) : Store * Decision :=
  let key := (keyPrefix cfg, ip, url) in
  let current :=
    match store !! key with
    | Some c =>
        if windowStart c + windowMs cfg <? now
        then {| count := 0; windowStart := now |}
        else c
    | None => {| count := 0; windowStart := now |}
    end in
  let counted := {| count := count current + 1;
                    windowStart := windowStart current |} in
  (<[key := counted]> store, respond cfg counted now ip url).

(** Modelled from the spec: a run of requests from one client to one
    endpoint, at the given clock readings; the store afterwards and the
    decisions in order. *)
Fixpoint serve (cfg : Config) (store : Store) (ip url : string)
    (times : list Z) : Store * list Decision :=
  match times with
  | [] => (store, [])
  | now :: rest =>
      let '(store', d) := limiter cfg store now ip url in
      let '(store'', ds) := serve cfg store' ip url rest in
      (store'', d :: ds)
  end.

(** Modelled from the spec: the key has no counter yet, or its window is
    over at [now]. *)
Definition fresh (cfg : Config) (store : Store) (now : Z)
    (ip url : string) : Prop :=
  match store !! (keyPrefix cfg, ip, url) with
  | Some c => windowStart c + windowMs cfg < now
  | None => True
  end.

End RateLimiter.

(* ===================================================================== *)
(** * The admin-magic-verify handler ([pages/api/auth/admin-magic-verify.ts]) *)
(* ===================================================================== *)

Module AdminMagicVerify.
Import Js.

(** Modelled from the spec: the allow-list of path prefixes and the
    default destination of the handler, whose source file is not in the
    tree. *)
Definition ALLOWED_REDIRECT_PREFIXES : list string :=
  ["/hub"; "/dashboard"; "/settings"; "/datarooms"; "/admin"].

Definition DEFAULT_REDIRECT : string := "/hub".

(** Modelled from the spec: a same-origin relative path begins with a
    single slash. *)
Definition isRelativePath (r : string) : bool :=
  startsWith r "/" && negb (startsWith r "//").

(** Modelled from the spec: the path matches the allow-list. *)
Definition hasAllowedPrefix (r : string) : bool :=
  existsb (fun p => startsWith r p) ALLOWED_REDIRECT_PREFIXES.

(** Modelled from the spec: the open-redirect defence of the handler,
    whose source file is not in the tree.  The [redirect] parameter is
    used when it is a same-origin relative path under one of the allowed
    prefixes, and replaced by the default destination otherwise. *)
Definition redirectTarget (redirect : option string) : string :=
  match redirect with
  | Some r =>
      if isRelativePath r && hasAllowedPrefix r then r else DEFAULT_REDIRECT
  | None => DEFAULT_REDIRECT
  end.

(** Modelled from the spec: the handler verifies the link with
    [verifyAdminMagicLink] and, on success, redirects to the validated
    target; [None] stands for the error redirect after a failed
    verification. *)
Definition verifyThenRedirect (trim toLowerCase : string -> string)
    (isUserAdminAsync : string -> bool)
    (db : gmap string AdminMagicLink.Row) (now : Z)
    (token email : string) (redirect : option string)
  : gmap string AdminMagicLink.Row * option string :=
  let '(db', ok) :=
    AdminMagicLink.verifyAdminMagicLink trim toLowerCase isUserAdminAsync
      db now token email in
  (db', if ok then Some (redirectTarget redirect) else None).

End AdminMagicVerify.

(* ===================================================================== *)
(** * The domain middleware ([DomainMiddleware])                          *)
(* ===================================================================== *)

Module Domain.
Import Js.

(** What the middleware takes from [lib/constants] and
    [lib/constants/saas-config], which are not part of the tree, and the
    [pathname] setter of a URL: [setPathname text] is what [url.pathname]
    reads once [text] has been assigned to it.  The setter parses the
    text as a path (it resolves dot segments and percent-encodes some
    characters); the URL parser is taken as given. *)
Record Env : Type := {
  isAppSignupDomain : string -> bool;
  isLoginPortalDomain : string -> bool;
  isInfrastructureDomain : string -> bool;
  PLATFORM_URL : string;
  BLOCKED_PATHNAMES : list string;
  PLATFORM_HEADERS : gmap string string;
  setPathname : string -> string
}.

(** [NextResponse.redirect(new URL(target, req.url))],
    [NextResponse.next()] and [NextResponse.rewrite(url, init)], the
    latter with the pathname of [url], the status and the headers of
    [init].  The pathname is the literal [/404], or what the setter made
    of the text built from the host and the path. *)
Inductive Response : Type :=
| Redirect (target : string)
| Next
| Rewrite (path : string) (status : option Z) (headers : gmap string string).

(** [`${host}`]: a missing header prints as the text null. *)
Definition hostText (h : option string) : string :=
  match h with
  | Some v => v
  | None => "null"
  end.

(** [host && test(host)] *)
Definition hostIs (test : string -> bool) (h : option string) : bool :=
  match h with
  | Some v => negb (String.eqb v "") && test v
  | None => false
  end.

Definition hostEq (h : option string) (name : string) : bool :=
  bool_decide (h = Some name).

(** [{ "X-Robots-Tag": "noindex", ...PLATFORM_HEADERS.headers }]: the
    spread comes last, so its entries win. *)
Definition rewriteHeaders (env : Env) : gmap string string :=
  PLATFORM_HEADERS env ∪ {[ "X-Robots-Tag" := "noindex" ]}.

Definition DomainMiddleware (env : Env) (req : Request) : Response :=
  let path := pathname req in
  let h := host req in
  if hostIs (isAppSignupDomain env) h then
    if String.eqb path "/" then Redirect "/signup" else Next
  else if hostIs (isLoginPortalDomain env) h then
    if String.eqb path "/" then Redirect "/admin/login" else Next
  else if hostIs (isInfrastructureDomain env) h then Next
  else if String.eqb path "/" then
    if hostEq h "guide.permithealth.com" then
      Redirect "https://guide.permithealth.com/faq"
    else if hostEq h "fund.tradeair.in" then
      Redirect "https://tradeair.in/sv-fm-inbound"
    else if hostEq h "docs.pashupaticapital.com" then
      Redirect "https://www.pashupaticapital.com/"
    else if hostEq h "partners.braxtech.net" then
      Redirect "https://partners.braxtech.net/investors"
    else if hostEq h "dataroom.bermudafranchisegroup.com"
            || hostEq h "bermudafranchisegroup.com"
            || hostEq h "www.bermudafranchisegroup.com" then
      Redirect "/login"
    else Redirect (PLATFORM_URL env)
  else if existsb (String.eqb path) (BLOCKED_PATHNAMES env) || includes path "." then
    Rewrite "/404" (Some 404) ∅
  else
    Rewrite (setPathname env ("/view/domains/" +:+ hostText h +:+ path))
            None (rewriteHeaders env).

End Domain.

(* ===================================================================== *)
(** * [src/lib/auth/auth-options.ts]                                      *)
(* ===================================================================== *)

Module AuthOptions.
Import Js.

(** The [redirect] callback.  [parseUrl u] is [new URL(u)] reduced to its
    [origin] and [pathname], [None] when the constructor throws. *)
Definition redirect (parseUrl : string -> option (string * string))
    (url baseUrl : string) : string :=
  if startsWith url "/" then
    let path := splitFirst "?" url in
    if String.eqb path "/" || startsWith path "/login" then
      baseUrl +:+ "/viewer-redirect"
    else baseUrl +:+ url
  else
    match parseUrl url with
    | Some (origin, path) =>
        if negb (String.eqb origin baseUrl) then baseUrl +:+ "/viewer-redirect"
        else if String.eqb path "/" || startsWith path "/login" then
          baseUrl +:+ "/viewer-redirect"
        else url
    | None => baseUrl +:+ "/viewer-redirect"
    end.

(** The claims of the JWT.  [createdAt] is kept as the time in
    milliseconds that the ISO text written by [toISOString] stands for. *)
Record JWT : Type := {
  id : option string;
  email : option string;
  name : option string;
  picture : option string;
  role : option string;
  createdAt : option Z;
  loginPortal : option string
}.

(** The [user] handed to the [jwt] callback on sign-in. *)
Record User : Type := {
  userId : string;
  userEmail : option string;
  userName : option string;
  userImage : option string
}.

(** The selected columns of [prisma.user.findUnique]. *)
Record DbUser : Type := {
  dbRole : option string;
  dbCreatedAt : option Z
}.

(** The [jwt] callback; [dbUser] and [adminTeam] are the answers of the
    two queries ([adminTeam] tells whether an active owner or admin
    membership was found). *)
Definition jwt (token : JWT) (user : option User)
    (dbUser : option DbUser) (adminTeam : bool) : JWT :=
  match user with
  | None => token
  | Some u =>
      {| id := Some (userId u);
         email := userEmail u;
         name := userName u;
         picture := userImage u;
         role := Some (if adminTeam then "GP"
                       else orElse (match dbUser with
                                    | Some d => dbRole d
                                    | None => None
                                    end) "LP");
         createdAt := match dbUser with
                      | Some d => dbCreatedAt d
                      | None => None
                      end;
         loginPortal := if truthy (loginPortal token) then loginPortal token
                        else Some (if adminTeam then "ADMIN" else "VISITOR") |}
  end.

(** What the [session] callback writes into [session.user]. *)
Record SessionUser : Type := {
  sessionId : option string;
  sessionEmail : option string;
  sessionName : option string;
  sessionImage : option string;
  sessionRole : string;
  sessionCreatedAt : option Z;
  sessionLoginPortal : option string
}.

(** The [session] callback, for a token that is present. *)
Definition session (token : JWT) : SessionUser :=
  {| sessionId := id token;
     sessionEmail := email token;
     sessionName := name token;
     sessionImage := picture token;
     sessionRole :=
       match role token with
       | Some r => if String.eqb r "GP" || String.eqb r "LP" then r else "LP"
       | None => "LP"
       end;
     sessionCreatedAt := createdAt token;
     sessionLoginPortal := loginPortal token |}.

(** The claims the app middleware reads back from the session cookie. *)
Definition toAppToken (token : JWT) : App.Token :=
  {| App.email := email token; App.role := role token;
     App.createdAt := createdAt token |}.

End AuthOptions.

(* ===================================================================== *)
(** * The Rollbar configuration ([lib/rollbar])                           *)
(* ===================================================================== *)

Module Rollbar.
Import Js.

(** A logged argument, as far as the two hooks tell them apart: a
    string, an [Error] with its [name] and [message], anything else. *)
Inductive LogArgument : Type :=
| LogString (text : string)
| LogError (name : string) (message : option string)
| LogOther.

Definition ignorePatterns : list string :=
  ["client token verification"; "token verification"; "initialized";
   "maximum call stack"; "call stack size exceeded"; "script error"].

(** [checkIgnore(_isUncaught, args)]; [toLowerCase] is the built-in
    [String.prototype.toLowerCase]. *)
Definition checkIgnore (toLowerCase : string -> string)
    (args : list LogArgument) : bool :=
  match args with
  | LogString message :: _ =>
      existsb (fun pattern => includes (toLowerCase message) pattern)
              ignorePatterns
  | LogError name message :: _ =>
      String.eqb name "RangeError"
      || match message with
         | Some m => includes (toLowerCase m) "call stack"
         | None => false
         end
  | _ => false
  end.

(** [onSendCallback(_isUncaught, args, _payload)]: [Some false] is the
    veto, [None] the function ending without a [return]. *)
Definition onSendCallback (args : list LogArgument) : option bool :=
  match args with
  | LogError name _ :: _ =>
      if String.eqb name "RangeError" then Some false else None
  | _ => None
  end.

End Rollbar.

(* ===================================================================== *)
(** * Specification-side definitions                                      *)
(* ===================================================================== *)

(** The hostname grammar as the specification writes it,
    [^[a-zA-Z0-9][a-zA-Z0-9\-.]*[a-zA-Z0-9]$] or a single alphanumeric
    character, to be compared with [Proxy.hostPattern_test]. *)
Inductive HostGrammar : string -> Prop :=
| HostSingle (c : ascii) :
    Js.isAlnum c = true -> HostGrammar (String c EmptyString)
| HostLonger (first last : ascii) (middle : string) :
    Js.isAlnum first = true ->
    Proxy.allChars Proxy.isHostChar middle = true ->
    Js.isAlnum last = true ->
    HostGrammar (String first (middle +:+ String last EmptyString)).

(** [s] contains the character [c]. *)
Fixpoint hasChar (c : ascii) (s : string) : bool :=
  match s with
  | EmptyString => false
  | String d r => Ascii.eqb d c || hasChar c r
  end.

(** The first character of [s] is [a]. *)
Definition headIs (a : ascii) (s : string) : bool :=
  match s with
  | String d _ => Ascii.eqb d a
  | EmptyString => false
  end.

(** The environment and requests used in the examples: no webhook host,
    no blocked path, nothing set in [process.env]; the header values of
    the examples are ASCII texts, on which [trim] is [Js.asciiTrim]. *)
Definition plainEnv : Proxy.Env :=
  {| Proxy.NODE_ENV := None;
     Proxy.NEXT_PUBLIC_PLATFORM_DOMAIN := None;
     Proxy.NEXTAUTH_URL := None;
     Proxy.urlHostname := fun _ => None;
     Proxy.isWebhookPath := fun _ => false;
     Proxy.BLOCKED_PATHNAMES := [];
     Proxy.trim := Js.asciiTrim |}.

(** The URL constructor on the references of the examples, for a request
    to [origin]: an absolute path is put behind the origin, the reference
    made of two slashes is refused, and any other reference of the
    examples is an absolute URL and kept. *)
Definition exampleNewURL (origin reference : string) : option string :=
  if String.eqb reference "//" then None
  else if Js.startsWith reference "/" then Some (origin +:+ reference)
  else Some reference.

Definition plainRequest (path : string) (h : option string)
    (forwardedFor : option string) : Request :=
  {| pathname := path; search := ""; searchParams := [];
     host := h; xForwardedFor := forwardedFor; xRealIp := None;
     xClientIp := None;
     newURL := exampleNewURL ("https://" +:+ Js.orElse h "localhost") |}.


(** ** Paths and values used in the statements and examples *)

(** The paths that none of the earlier rules of the middleware handles:
    not the root, not a public page, not under [/view/], not
    [/viewer-redirect], neither an LP nor a GP route. *)
Definition isOtherPath (path : string) : bool :=
  negb (String.eqb path "/")
  && negb (App.isPublicPage path)
  && negb (Js.startsWith path "/view/")
  && negb (String.eqb path "/viewer-redirect")
  && negb (App.isLpRoute path)
  && negb (App.isGpRoute path).

Definition newGpToken (now : Z) : App.Token :=
  {| App.email := Some "gp@fund.example"; App.role := Some "GP";
     App.createdAt := Some now |}.

Definition lpToken : App.Token :=
  {| App.email := Some "lp@fund.example"; App.role := Some "LP";
     App.createdAt := None |}.

Definition requestTo (path query : string)
    (params : list (string * string)) : Request :=
  {| pathname := path; search := query; searchParams := params;
     host := Some "localhost"; xForwardedFor := None; xRealIp := None;
     xClientIp := None; newURL := exampleNewURL "https://localhost" |}.

(** A request with a forwarded-for value that is no IP address. *)
Definition requestWithBadIp : Request :=
  plainRequest "/dashboard" (Some "localhost") (Some "not-an-ip").

Definition everybodyIsAdmin : string -> bool := fun _ => true.

Definition oneLink : gmap string AdminMagicLink.Row :=
  {[ "tok-1" := {| AdminMagicLink.identifier := "admin-magic:ops@fund.example";
                   AdminMagicLink.expires := 2000 |} ]}.

Definition twoLinks : gmap string AdminMagicLink.Row :=
  AdminMagicLink.steps Js.asciiTrim Js.asciiToLowerCase everybodyIsAdmin ∅
    [AdminMagicLink.Create 0 "tok-1" "ops@fund.example" None "https://app.example";
     AdminMagicLink.Create 1 "tok-2" "ops@fund.example" None "https://app.example"].

Definition boundaryLimiter : RateLimiter.Config :=
  {| RateLimiter.windowMs := 60000; RateLimiter.maxRequests := 3;
     RateLimiter.keyPrefix := "test-boundary" |}.

(** The addresses of the examples are ASCII texts, on which
    [toLowerCase] is [Js.asciiToLowerCase]. *)
Definition mailEnv : EmailLogin.Env :=
  {| EmailLogin.toLowerCase := Js.asciiToLowerCase;
     EmailLogin.urlParses := fun _ => true;
     EmailLogin.NEXTAUTH_URL := None |}.

(** A run in which every awaited call resolves, one in which [create]
    rejects and one in which the email cannot be sent. *)
Definition smoothRun (clock : Z) (random : string) : EmailLogin.Run :=
  {| EmailLogin.now := clock; EmailLogin.randomHex := random;
     EmailLogin.deleteManyError := None; EmailLogin.createError := None;
     EmailLogin.sendError := None |}.

Definition createRejectedRun (clock : Z) (random : string) : EmailLogin.Run :=
  {| EmailLogin.now := clock; EmailLogin.randomHex := random;
     EmailLogin.deleteManyError := None;
     EmailLogin.createError := Some "PrismaClientKnownRequestError";
     EmailLogin.sendError := None |}.

Definition mailDownRun (clock : Z) (random : string) : EmailLogin.Run :=
  {| EmailLogin.now := clock; EmailLogin.randomHex := random;
     EmailLogin.deleteManyError := None; EmailLogin.createError := None;
     EmailLogin.sendError := Some "Error" |}.

(** The row an issuance stores. *)
Definition issuedRow (env : EmailLogin.Env) (run : EmailLogin.Run)
    (email url : string) : EmailLogin.Row :=
  {| EmailLogin.identifier := EmailLogin.toLowerCase env email;
     EmailLogin.token := EmailLogin.randomHex run;
     EmailLogin.callbackUrl := url; EmailLogin.authTokenHash := "";
     EmailLogin.expires := EmailLogin.now run + 1800000 |}.

(** Every table of the list holds at most one row per identifier. *)
Definition oneRowEach (tables : list (list EmailLogin.Row)) : Prop :=
  forall table, In table tables ->
  forall ident, (EmailLogin.rowsFor ident table <= 1)%nat.

(** Two rows left under one identifier. *)
Definition staleRows : list EmailLogin.Row :=
  [ {| EmailLogin.identifier := "lp@fund.example"; EmailLogin.token := "aa";
       EmailLogin.callbackUrl := "https://app.example/cb";
       EmailLogin.authTokenHash := ""; EmailLogin.expires := 10 |};
    {| EmailLogin.identifier := "lp@fund.example"; EmailLogin.token := "bb";
       EmailLogin.callbackUrl := "https://app.example/cb";
       EmailLogin.authTokenHash := ""; EmailLogin.expires := 20 |} ].

(** ** Definitions used in the further properties *)

(** The characters of a validated client IP: hexadecimal digits, colons
    and dots. *)
Definition isIpChar (c : ascii) : bool :=
  Proxy.isIpv6Char c || Ascii.eqb c ".".


(** A request that came through two proxies. *)
Definition forwardedRequest : Request :=
  plainRequest "/hub" (Some "localhost") (Some " 203.0.113.7 , 10.0.0.1").


(** A platform configuration for the examples of the domain middleware.
    The texts assigned to [url.pathname] in the examples hold no dot
    segment and no character to encode: the setter keeps them. *)
Definition platformEnv : Domain.Env :=
  {| Domain.isAppSignupDomain := fun h => String.eqb h "app.fundroom.ai";
     Domain.isLoginPortalDomain := fun h => String.eqb h "app.login.fundroom.ai";
     Domain.isInfrastructureDomain := fun h => Js.endsWith h ".vercel.app";
     Domain.PLATFORM_URL := "https://fundroom.ai";
     Domain.BLOCKED_PATHNAMES := ["/phpmyadmin"];
     Domain.PLATFORM_HEADERS := ∅;
     Domain.setPathname := fun text => text |}.


(** The host is one of the platform's own: the signup domain, the login
    portal or an infrastructure domain. *)
Definition isPlatformHost (env : Domain.Env) (h : option string) : bool :=
  Domain.hostIs (Domain.isAppSignupDomain env) h
  || Domain.hostIs (Domain.isLoginPortalDomain env) h
  || Domain.hostIs (Domain.isInfrastructureDomain env) h.


(** [s] does not begin with white space. *)
Definition noLeadingSpace (s : string) : bool :=
  match s with
  | String c _ => negb (Js.isSpace c)
  | EmptyString => true
  end.


(** A URL parser for the examples: it knows two absolute URLs. *)
Definition exampleParseUrl (u : string) : option (string * string) :=
  if String.eqb u "https://app.example/datarooms/1" then
    Some ("https://app.example", "/datarooms/1")
  else if String.eqb u "https://elsewhere.example/x" then
    Some ("https://elsewhere.example", "/x")
  else None.

Definition signingUser : AuthOptions.User :=
  {| AuthOptions.userId := "user-1";
     AuthOptions.userEmail := Some "gp@fund.example";
     AuthOptions.userName := None;
     AuthOptions.userImage := None |}.

Definition emptyJWT : AuthOptions.JWT :=
  {| AuthOptions.id := None; AuthOptions.email := None;
     AuthOptions.name := None; AuthOptions.picture := None;
     AuthOptions.role := None; AuthOptions.createdAt := None;
     AuthOptions.loginPortal := None |}.


(** A request to a tenant's own domain. *)
Definition tenantRequest : Request :=
  plainRequest "/deck" (Some "dataroom.acme.example") None.

(* ===================================================================== *)
(** * Facts about strings                                                 *)
(* ===================================================================== *)

Section StringFacts.
Import Js.

Lemma startsWith_app (s p : string) :
  startsWith s p = true -> exists r, s = p +:+ r.
Proof.
  unfold startsWith. revert s.
  induction p as [|c p IH]; intros s H.
  - exists s. reflexivity.
  - destruct s as [|d s]; simpl in H; [discriminate|].
    destruct (ascii_dec c d) as [->|]; [|discriminate].
    destruct (IH s H) as [r ->]. exists r. reflexivity.
Qed.

Lemma append_empty_r (s : string) : s +:+ "" = s.
Proof.
  induction s as [|c s IH]; [reflexivity|].
  change (String c (s +:+ "") = String c s). now rewrite IH.
Qed.

Lemma eqb_false_of_neq (s t : string) : s <> t -> String.eqb s t = false.
Proof. intros H. now apply String.eqb_neq. Qed.

Example decodeURIComponent_ascii :
  decodeURIComponent "/a%20b%2Fc" = Returns "/a b/c".
Proof. reflexivity. Qed.

Example decodeURIComponent_utf8 :
  decodeURIComponent "%E2%82%AC" = Returns "€".
Proof. reflexivity. Qed.

Example decodeURIComponent_throws :
  map decodeURIComponent ["%"; "%4"; "%zz"; "%80"; "%C0%AF"; "%E2%82"; "%ED%A0%80"; "%F5%80%80%80"]
  = repeat (Throws "URIError") 8.
Proof. reflexivity. Qed.

End StringFacts.

(* ===================================================================== *)
(** * Facts about [src/proxy.ts]                                          *)
(* ===================================================================== *)

Section ProxyFacts.
Import Js Proxy.

Lemma hostTail_grammar (s : string) :
  hostTail s = true <->
  exists middle last,
    s = middle +:+ String last EmptyString
    /\ allChars isHostChar middle = true /\ isAlnum last = true.
Proof.
  split.
  - induction s as [|c r IH]; simpl; [discriminate|].
    destruct r as [|d r'].
    + intros Hc. exists EmptyString, c. auto.
    + intros H. apply andb_true_iff in H as [Hc Hr].
      destruct (IH Hr) as (middle & last & -> & Hm & Hl).
      exists (String c middle), last. simpl. rewrite Hc, Hm. auto.
  - intros (middle & last & -> & Hm & Hl). revert Hm.
    induction middle as [|c m IH]; simpl; intros Hm; [assumption|].
    apply andb_true_iff in Hm as [Hc Hm].
    specialize (IH Hm).
    destruct (m +:+ String last EmptyString) as [|d r'] eqn:E.
    + destruct m; discriminate.
    + rewrite Hc. exact IH.
Qed.

Lemma hostPattern_test_grammar (s : string) :
  hostPattern_test s = true <-> HostGrammar s.
Proof.
  split.
  - destruct s as [|c r]; simpl; [discriminate|].
    destruct r as [|d r'].
    + intros Hc. now constructor.
    + intros H. apply andb_true_iff in H as [Hc Hr].
      apply hostTail_grammar in Hr as (middle & last & -> & Hm & Hl).
      now constructor.
  - intros [c Hc | first last middle Hf Hm Hl]; simpl; [assumption|].
    assert (Ht : hostTail (middle +:+ String last EmptyString) = true)
      by (apply hostTail_grammar; eauto).
    destruct (middle +:+ String last EmptyString) as [|d r'] eqn:E.
    + destruct middle; discriminate.
    + now rewrite Hf.
Qed.

Lemma hostPattern_test_false (s : string) :
  hostPattern_test s = false -> ~ HostGrammar s.
Proof.
  intros H G. apply hostPattern_test_grammar in G. congruence.
Qed.

(** [validateHost] accepts exactly the values whose part before the first
    colon is in the grammar and has at most 253 characters. *)
Lemma validateHost_true_iff (h : option string) :
  validateHost h = true <->
  exists v, h = Some v
    /\ HostGrammar (splitFirst ":" v)
    /\ (String.length (splitFirst ":" v) <= 253)%nat.
Proof.
  unfold validateHost. split.
  - destruct h as [v|]; [|discriminate].
    destruct (String.eqb v "") eqn:Ev; [discriminate|].
    destruct (253 <? String.length (splitFirst ":" v))%nat eqn:El; [discriminate|].
    destruct (hostPattern_test (splitFirst ":" v)) eqn:Ep; [|discriminate].
    intros _. exists v. repeat split.
    + now apply hostPattern_test_grammar.
    + apply Nat.ltb_ge in El. exact El.
  - intros (v & -> & G & L).
    apply hostPattern_test_grammar in G.
    destruct (String.eqb v "") eqn:Ev.
    + apply String.eqb_eq in Ev. subst v. discriminate.
    + apply Nat.ltb_ge in L. rewrite L, G. reflexivity.
Qed.

Example validateHost_examples :
  map validateHost
    [None; Some ""; Some "example.com"; Some "a"; Some "a_b.com";
     Some "a/b"; Some "-a.com"; Some "a.com-"; Some "app.example.com:3000"]
  = [false; false; true; true; false; false; false; false; true].
Proof. reflexivity. Qed.

Example ipPattern_examples :
  map ipv4Pattern_test ["192.168.1.1"; "999.999.999.999"; "1.2.3"; "1.2.3.4.5"; "1234.1.1.1"]
  = [true; true; false; false; false]
  /\ map ipv6Pattern_test ["::1"; "fe80::1"; "not-an-ip"; ""]
     = [true; true; false; false].
Proof. split; reflexivity. Qed.

End ProxyFacts.

Section ProxyOutcomes.
Import Js Proxy.

Ltac unfold_proxy :=
  unfold proxy, proxyBody, mbind, result_bind, Js.bind.

Lemma proxy_invalid_host (env : Env) (req : Request) (path : string) :
  sanitizePath (pathname req) = Returns path ->
  validateHost (host req) = false ->
  proxy env req = ErrorResponse "Invalid host header" 400.
Proof.
  intros Hp Hh. unfold_proxy. rewrite Hp, Hh. reflexivity.
Qed.

Lemma proxy_invalid_host_no_dispatch (env : Env) (req : Request) :
  validateHost (host req) = false ->
  forall d r, proxy env req <> Dispatch d r.
Proof.
  intros Hh d r. unfold_proxy.
  destruct (sanitizePath (pathname req)); [|discriminate].
  rewrite Hh. discriminate.
Qed.

Lemma proxy_valid_host_not_400 (env : Env) (req : Request) :
  validateHost (host req) = true ->
  forall message, proxy env req <> ErrorResponse message 400.
Proof.
  intros Hh message. unfold_proxy.
  destruct (sanitizePath (pathname req)); [|discriminate].
  rewrite Hh. cbn [negb].
  repeat case_match; congruence.
Qed.


Lemma malformedIp_validate (env : Env) (req : Request) (ip : string) :
  clientIpCandidate env req = Some ip ->
  ipv4Pattern_test ip = false -> ipv6Pattern_test ip = false ->
  validateClientIP env req = None.
Proof.
  intros Hc H4 H6. unfold validateClientIP.
  rewrite Hc, H4, H6. reflexivity.
Qed.

Lemma validate_withoutIpHeaders (env : Env) (req : Request) :
  validateClientIP env (withoutIpHeaders req) = None.
Proof. reflexivity. Qed.

(** With no usable client IP the request is dispatched as it came. *)
Lemma proxy_no_ip_dispatch (env : Env) (req : Request) :
  validateClientIP env req = None ->
  forall d req', proxy env req = Dispatch d req' -> req' = req.
Proof.
  intros Hv d req'. unfold_proxy. rewrite Hv.
  repeat case_match; congruence.
Qed.

Lemma proxy_no_ip_same (env : Env) (req : Request) :
  validateClientIP env req = None ->
  proxy env (withoutIpHeaders req) =
  match proxy env req with
  | Dispatch d _ => Dispatch d (withoutIpHeaders req)
  | ErrorResponse message status => ErrorResponse message status
  end.
Proof.
  intros Hv. unfold_proxy. rewrite Hv, validate_withoutIpHeaders.
  change (pathname (withoutIpHeaders req)) with (pathname req).
  change (host (withoutIpHeaders req)) with (host req).
  repeat case_match; congruence.
Qed.

End ProxyOutcomes.

Section ProxyClaims.
Import Js Proxy.

Lemma removeChars_hasChar (p : ascii -> bool) (c : ascii) (s : string) :
  p c = true -> hasChar c (removeChars p s) = false.
Proof.
  intros Hc. induction s as [|d s IH]; simpl; [reflexivity|].
  destruct (p d) eqn:Hd; simpl; [exact IH|].
  rewrite IH, orb_false_r.
  destruct (Ascii.eqb_spec d c) as [->|]; [congruence|reflexivity].
Qed.

(** X28: what [sanitizePath] does achieve: its result holds no angle
    bracket and no quote. *)
Lemma sanitizePath_no_markup (path sanitized : string) (c : ascii) :
  sanitizePath path = Returns sanitized ->
  isMarkupChar c = true -> hasChar c sanitized = false.
Proof.
  unfold sanitizePath, mbind, result_bind, Js.bind.
  destruct (decodeURIComponent _) as [decoded|]; [|discriminate].
  intros [= <-] Hc. now apply removeChars_hasChar.
Qed.

Lemma includes_pair_cons (a c : ascii) (s : string) :
  includes (String c s) (String a (String a EmptyString)) =
  (Ascii.eqb c a && headIs a s) || includes s (String a (String a EmptyString)).
Proof.
  cbn [includes]. f_equal.
  destruct s as [|d r]; cbn [String.prefix headIs].
  - now destruct (ascii_dec a c); rewrite andb_false_r.
  - destruct (ascii_dec a c) as [<-|Hc].
    + rewrite Ascii.eqb_refl. cbn [andb].
      destruct (ascii_dec a d) as [<-|Hd].
      * rewrite Ascii.eqb_refl. now destruct r.
      * symmetry. apply Ascii.eqb_neq. congruence.
    + assert (E : Ascii.eqb c a = false) by (apply Ascii.eqb_neq; congruence).
      now rewrite E.
Qed.

Lemma includes_pair_nil (a : ascii) :
  includes EmptyString (String a (String a EmptyString)) = false.
Proof. reflexivity. Qed.

(** After the first replacement no two dots are left side by side. *)
Lemma removeDotRuns_clean (s : string) : forall dots,
  includes (removeDotRuns dots s) ".." = false.
Proof.
  induction s as [|c r IH]; intros dots; cbn [removeDotRuns].
  - destruct dots as [|[|dots]]; reflexivity.
  - destruct (Ascii.eqb c ".") eqn:Ec; [apply IH|].
    assert (Hrest : includes (String c (removeDotRuns 0 r)) ".." = false).
    { rewrite includes_pair_cons, Ec, IH. reflexivity. }
    destruct dots as [|[|dots]]; cbn [flushDots]; try exact Hrest.
    rewrite includes_pair_cons, Hrest. cbn [headIs]. rewrite Ec. reflexivity.
Qed.

Lemma collapseSlashes_head (a : ascii) (s : string) :
  headIs a (collapseSlashes false s) = headIs a s.
Proof.
  destruct s as [|c r]; [reflexivity|]. cbn [collapseSlashes].
  destruct (Ascii.eqb c "/"); reflexivity.
Qed.

(** The second replacement brings no two dots together. *)
Lemma collapseSlashes_keeps_clean (s : string) : forall after,
  includes s ".." = false ->
  includes (collapseSlashes after s) ".." = false.
Proof.
  induction s as [|c r IH]; intros after H; [reflexivity|].
  rewrite includes_pair_cons in H. apply orb_false_iff in H as [Hc Hr].
  cbn [collapseSlashes]. destruct (Ascii.eqb_spec c "/") as [->|Hne].
  - destruct after; [now apply IH|].
    rewrite includes_pair_cons. now rewrite IH.
  - rewrite includes_pair_cons, collapseSlashes_head, Hc. now rewrite IH.
Qed.

(** After the second replacement no two slashes are left side by side. *)
Lemma collapseSlashes_clean (s : string) : forall after,
  includes (collapseSlashes after s) "//" = false
  /\ (after = true -> headIs "/" (collapseSlashes after s) = false).
Proof.
  induction s as [|c r IH]; intros after; [split; reflexivity|].
  cbn [collapseSlashes]. destruct (Ascii.eqb c "/") eqn:Ec.
  - destruct after.
    + apply IH.
    + split; [|discriminate].
      destruct (IH true) as [Hin Hhead].
      rewrite includes_pair_cons, Hin, (Hhead eq_refl). now rewrite andb_false_r.
  - split.
    + rewrite includes_pair_cons, Ec. apply (IH false).
    + intros _. exact Ec.
Qed.

(** X27: what [sanitizePath] has achieved when it comes to decode: the
    text it hands to [decodeURIComponent] holds neither two dots nor two
    slashes in a row. *)
Lemma sanitizePath_before_decoding (path : string) :
  includes (collapseSlashes false (removeDotRuns O path)) ".." = false
  /\ includes (collapseSlashes false (removeDotRuns O path)) "//" = false.
Proof.
  split.
  - apply collapseSlashes_keeps_clean, removeDotRuns_clean.
  - apply collapseSlashes_clean.
Qed.
(** C5, as the claim states it, fails: the value [localhost:3000] is not
    in the hostname grammar (it holds a colon), yet the proxy does not
    answer 400 but hands the request to the app middleware. *)
Lemma C5_port_is_accepted :
  ~ HostGrammar "localhost:3000"
  /\ proxy plainEnv (plainRequest "/dashboard" (Some "localhost:3000") None)
     = Dispatch ToAppMiddleware
         (plainRequest "/dashboard" (Some "localhost:3000") None).
Proof.
  split.
  - apply hostPattern_test_false. reflexivity.
  - vm_compute. reflexivity.
Qed.

(** C5 (amended): host validation looks at the part of the Host value
    before the first colon.  It accepts exactly when there is a Host
    value whose part before the first colon is in the hostname grammar and
    has at most 253 characters; the proxy then never answers 400.  Every
    other Host value (absent, empty, with an underscore or a slash before
    the first colon, too long) is never dispatched, and is answered with
    the 400 JSON error whenever the request path percent-decodes. *)
Theorem C5_host_validation (env : Env) (req : Request) :
  (validateHost (host req) = true <->
     exists v, host req = Some v
       /\ HostGrammar (splitFirst ":" v)
       /\ (String.length (splitFirst ":" v) <= 253)%nat)
  /\ (validateHost (host req) = true ->
        forall message, proxy env req <> ErrorResponse message 400)
  /\ (validateHost (host req) = false ->
        (forall d r, proxy env req <> Dispatch d r)
        /\ forall path, sanitizePath (pathname req) = Returns path ->
             proxy env req = ErrorResponse "Invalid host header" 400).
Proof.
  split; [apply validateHost_true_iff|].
  split.
  - apply proxy_valid_host_not_400.
  - intros Hh. split.
    + now apply proxy_invalid_host_no_dispatch.
    + intros path Hp. now apply proxy_invalid_host with (path := path).
Qed.

Lemma C5_host_validation_witness :
  proxy plainEnv (plainRequest "/hub" (Some "a_b.example") None)
    = ErrorResponse "Invalid host header" 400
  /\ (forall message,
        proxy plainEnv (plainRequest "/hub" (Some "example.com") None)
          <> ErrorResponse message 400).
Proof.
  split.
  - exact (proj2 (proj2 (proj2 (C5_host_validation plainEnv
             (plainRequest "/hub" (Some "a_b.example") None))) eq_refl)
             "/hub" eq_refl).
  - exact (proj1 (proj2 (C5_host_validation plainEnv
             (plainRequest "/hub" (Some "example.com") None))) eq_refl).
Defined.

(** C6: on the path [/x/%2e%2e%2fsecret] the sanitizer returns
    [/x/../secret], which holds two dots in a row, and on [/a%2f%2fb] it
    returns [/a//b], which holds two slashes in a row: both patterns are
    removed before the path is percent-decoded, not after. *)
Theorem C6_sanitizePath_decodes_last :
  sanitizePath "/x/%2e%2e%2fsecret" = Returns "/x/../secret"
  /\ includes "/x/../secret" ".." = true
  /\ sanitizePath "/a%2f%2fb" = Returns "/a//b"
  /\ includes "/a//b" "//" = true.
Proof. repeat split; vm_compute; reflexivity. Qed.

(** C9, as the claim states it, fails: the forwarded-for value
    [not-an-ip] passes neither pattern, yet the proxy answers with no
    error and hands the request to the app middleware. *)
Lemma C9_malformed_ip_is_forwarded :
  clientIpCandidate plainEnv requestWithBadIp = Some "not-an-ip"
  /\ ipv4Pattern_test "not-an-ip" = false
  /\ ipv6Pattern_test "not-an-ip" = false
  /\ proxy plainEnv requestWithBadIp = Dispatch ToAppMiddleware requestWithBadIp.
Proof. repeat split; vm_compute; reflexivity. Qed.

(** C9 (amended): for every request whose client-IP-bearing headers yield
    a value that conforms to neither the IPv4 nor the IPv6 pattern, the
    proxy drops the value: [validateClientIP] gives [null], a dispatched
    request is the incoming one with no [x-client-ip] header set on it,
    and the outcome is the one of the same request without its
    client-IP-bearing headers. *)
Theorem C9_malformed_ip_is_dropped (env : Env) (req : Request) (ip : string) :
  clientIpCandidate env req = Some ip ->
  ipv4Pattern_test ip = false ->
  ipv6Pattern_test ip = false ->
  validateClientIP env req = None
  /\ (forall d req', proxy env req = Dispatch d req' -> req' = req)
  /\ proxy env (withoutIpHeaders req) =
     match proxy env req with
     | Dispatch d _ => Dispatch d (withoutIpHeaders req)
     | ErrorResponse message status => ErrorResponse message status
     end.
Proof.
  intros Hc H4 H6.
  assert (Hv : validateClientIP env req = None)
    by (now apply malformedIp_validate with (ip := ip)).
  split; [exact Hv|]. split.
  - now apply proxy_no_ip_dispatch.
  - now apply proxy_no_ip_same.
Qed.

Lemma C9_malformed_ip_is_dropped_witness :
  validateClientIP plainEnv requestWithBadIp = None
  /\ (forall d req',
        proxy plainEnv requestWithBadIp = Dispatch d req' ->
        req' = requestWithBadIp)
  /\ proxy plainEnv (withoutIpHeaders requestWithBadIp) =
     match proxy plainEnv requestWithBadIp with
     | Dispatch d _ => Dispatch d (withoutIpHeaders requestWithBadIp)
     | ErrorResponse message status => ErrorResponse message status
     end.
Proof.
  exact (C9_malformed_ip_is_dropped plainEnv requestWithBadIp
           "not-an-ip" eq_refl eq_refl eq_refl).
Defined.

End ProxyClaims.

(* ===================================================================== *)
(** * Facts about the app middleware                                      *)
(* ===================================================================== *)

Section AppFacts.
Import Js App.

(** A path with a given literal prefix: replace it by the prefix followed
    by an unknown rest, after which tests on its first characters
    compute. *)
Ltac expose_prefix H :=
  apply startsWith_app in H; destruct H as [? ->].

Lemma lp_not_root (p : string) :
  isLpRoute p = true -> String.eqb p "/" = false.
Proof. intros H. expose_prefix H. reflexivity. Qed.

Lemma lp_not_view (p : string) :
  isLpRoute p = true -> startsWith p "/view/" = false.
Proof. intros H. expose_prefix H. reflexivity. Qed.

Lemma lp_not_viewer_redirect (p : string) :
  isLpRoute p = true -> String.eqb p "/viewer-redirect" = false.
Proof. intros H. expose_prefix H. reflexivity. Qed.

Lemma lp_not_signup (p : string) :
  isLpRoute p = true -> String.eqb p "/signup" = false.
Proof. intros H. expose_prefix H. reflexivity. Qed.

Lemma gp_cases (p : string) :
  isGpRoute p = true ->
  p <> "/admin/login" /\
  exists r, In r gpRoutes /\ startsWith p r = true.
Proof.
  unfold isGpRoute. intros H. apply andb_true_iff in H as [Hn He].
  split.
  - intros ->. discriminate.
  - apply existsb_exists in He. exact He.
Qed.

(** Every consequence of [isGpRoute p] that the middleware tests before
    it reaches the GP branch. *)
Lemma gp_earlier_tests (p : string) :
  isGpRoute p = true ->
  String.eqb p "/" = false
  /\ isPublicPage p = false
  /\ startsWith p "/view/" = false
  /\ String.eqb p "/viewer-redirect" = false
  /\ isLpRoute p = false.
Proof.
  intros H. destruct (gp_cases p H) as (_ & r & Hin & Hp).
  unfold isLpRoute, isPublicPage.
  simpl in Hin.
  repeat (destruct Hin as [<- | Hin]; [expose_prefix Hp; repeat split; reflexivity|]).
  contradiction.
Qed.

Example app_login_page_examples :
  map (fun req => run (Some lpToken) (AppMiddleware 0 req))
    [ requestTo "/login" "?next=%2Fdashboard" [("next", "/dashboard")];
      requestTo "/login" "?next=%2Flp%2Flogin" [("next", "/lp/login")];
      requestTo "/login" "" [];
      requestTo "/admin/login" "" [];
      requestTo "/login" "?next=%25" [("next", "%")];
      requestTo "/login" "?next=%2F%2F" [("next", "//")] ]
  = [ Returns (Some (RedirectUrl "https://localhost/dashboard"));
      Returns (Some (RedirectUrl "https://localhost/viewer-redirect"));
      Returns (Some (RedirectUrl "https://localhost/viewer-redirect"));
      Returns (Some (RedirectUrl "https://localhost/hub"));
      Throws "URIError";
      Throws "TypeError" ].
Proof. reflexivity. Qed.

Example app_unauthenticated_examples :
  map (fun req => run None (AppMiddleware 0 req))
    [ requestTo "/profile" "?tab=1" [("tab", "1")];
      requestTo "/documents/7" "" [];
      requestTo "/login" "" [];
      requestTo "/view/abc" "" [] ]
  = [ Returns (Some (Redirect "/login" (Some "/profile?tab=1")));
      Returns (Some (Redirect "/admin/login" (Some "/documents/7")));
      Returns None;
      Returns (Some Next) ].
Proof. reflexivity. Qed.

End AppFacts.

Section AppClaims.
Import Js App.

Lemma nextPathOf_append (req : Request) :
  nextPathOf req = pathname req +:+ search req.
Proof.
  unfold nextPathOf. destruct (String.eqb_spec (search req) "") as [->|_].
  - symmetry. apply append_empty_r.
  - reflexivity.
Qed.

Lemma loginPageRedirect_no_token (req : Request) (decoded : option Token) :
  decodings decoded (loginPageRedirect req) = O.
Proof.
  unfold loginPageRedirect.
  destruct (truthy _).
  - destruct (decodeURIComponent _); [|reflexivity].
    destruct (newURL req _); reflexivity.
  - destruct (newURL req _); reflexivity.
Qed.

(** Off the root path the session cookie is decoded exactly once. *)
Lemma app_decodes_once (now : Z) (req : Request) (decoded : option Token) :
  pathname req <> "/" ->
  decodings decoded (AppMiddleware now req) = 1%nat.
Proof.
  intros Hp. unfold AppMiddleware.
  rewrite (eqb_false_of_neq _ _ Hp). cbn [decodings]. f_equal.
  repeat case_match; try reflexivity; apply loginPageRedirect_no_token.
Qed.

(** C3: a request without a decoded session token to a path under [/lp/]
    other than the public LP login and onboarding pages is redirected to
    [/lp/login] with the path followed by the query string as [next]; a
    request with an authenticated LP token to a GP route is redirected to
    [/viewer-portal]; a request with an authenticated GP token to a path
    under [/lp/] is let through. *)
Theorem C3_route_guards (now : Z) (req : Request) :
  (isLpRoute (pathname req) = true ->
   pathname req <> "/lp/login" -> pathname req <> "/lp/onboard" ->
   run None (AppMiddleware now req)
   = Returns (Some (Redirect "/lp/login" (Some (pathname req +:+ search req)))))
  /\ (forall t : Token,
        truthy (email t) = true -> userRoleOf (Some t) = "LP" ->
        isGpRoute (pathname req) = true ->
        run (Some t) (AppMiddleware now req)
        = Returns (Some (Redirect "/viewer-portal" None)))
  /\ (forall t : Token,
        truthy (email t) = true -> userRoleOf (Some t) = "GP" ->
        isLpRoute (pathname req) = true ->
        run (Some t) (AppMiddleware now req) = Returns (Some Next)).
Proof.
  split; [|split].
  - intros Hlp Hlogin Honboard. unfold AppMiddleware.
    rewrite (lp_not_root _ Hlp). cbn [run].
    unfold isPublicPage.
    rewrite (eqb_false_of_neq _ _ Hlogin), (eqb_false_of_neq _ _ Honboard),
      (lp_not_signup _ Hlp), (lp_not_view _ Hlp),
      (lp_not_viewer_redirect _ Hlp), Hlp.
    cbn. now rewrite nextPathOf_append.
  - intros t He Hr Hgp.
    destruct (gp_earlier_tests _ Hgp) as (H1 & H2 & H3 & H4 & H5).
    unfold AppMiddleware. rewrite H1. cbn [run].
    rewrite H2, H3, H4, H5, Hgp, Hr.
    cbn [userEmailOf]. rewrite He. reflexivity.
  - intros t He Hr Hlp. unfold AppMiddleware.
    rewrite (lp_not_root _ Hlp). cbn [run].
    destruct (isPublicPage (pathname req)); [reflexivity|].
    rewrite (lp_not_view _ Hlp), (lp_not_viewer_redirect _ Hlp), Hlp, Hr.
    cbn [userEmailOf]. rewrite He. reflexivity.
Qed.

Lemma C3_route_guards_witness :
  run None (AppMiddleware 0 (requestTo "/lp/docs" "?tab=2" [("tab", "2")]))
    = Returns (Some (Redirect "/lp/login" (Some "/lp/docs?tab=2")))
  /\ run (Some lpToken) (AppMiddleware 0 (requestTo "/dashboard" "" []))
     = Returns (Some (Redirect "/viewer-portal" None))
  /\ run (Some (newGpToken 0)) (AppMiddleware 0 (requestTo "/lp/docs" "" []))
     = Returns (Some Next).
Proof.
  split; [|split].
  - refine (proj1 (C3_route_guards 0 (requestTo "/lp/docs" "?tab=2" [("tab", "2")]))
             eq_refl _ _); discriminate.
  - exact (proj1 (proj2 (C3_route_guards 0 (requestTo "/dashboard" "" [])))
             lpToken eq_refl eq_refl eq_refl).
  - exact (proj2 (proj2 (C3_route_guards 0 (requestTo "/lp/docs" "" [])))
             (newGpToken 0) eq_refl eq_refl eq_refl).
Defined.

(** C8, as the claim states it, fails: an authenticated GP account created
    at this very moment, asking for [/dashboard] with no [invitation]
    parameter, is let through and not redirected to [/welcome]. *)
Lemma C8_new_account_on_gp_route :
  1000000 - 10000 < 1000000
  /\ "/dashboard" <> "/welcome"
  /\ paramHas "invitation" (searchParams (requestTo "/dashboard" "" [])) = false
  /\ run (Some (newGpToken 1000000))
         (AppMiddleware 1000000 (requestTo "/dashboard" "" []))
     = Returns (Some Next).
Proof. repeat split; try reflexivity. discriminate. Qed.

(** C8 (amended): for every authenticated request whose account was
    created less than 10 seconds before now, to a path other than
    [/welcome] that is handled by none of the earlier rules (not the
    root, not a public page, not under [/view/], not [/viewer-redirect],
    not an LP route and not a GP route): without an [invitation]
    parameter the middleware redirects to [/welcome]; with one, and off
    the login pages, it does not redirect at all ([/viewer-portal] is let
    through, elsewhere the middleware gives no response of its own). *)
Theorem C8_welcome_gate (now : Z) (req : Request) (t : Token) (created : Z) :
  truthy (email t) = true ->
  createdAt t = Some created ->
  now - 10000 < created ->
  pathname req <> "/welcome" ->
  isOtherPath (pathname req) = true ->
  (paramHas "invitation" (searchParams req) = false ->
   run (Some t) (AppMiddleware now req)
   = Returns (Some (Redirect "/welcome" None)))
  /\ (paramHas "invitation" (searchParams req) = true ->
      isLoginPage (pathname req) = false ->
      run (Some t) (AppMiddleware now req)
      = Returns (if String.eqb (pathname req) "/viewer-portal"
                 then Some Next else None)
      /\ forall next, run (Some t) (AppMiddleware now req)
                      <> Returns (Some (Redirect "/welcome" next))).
Proof.
  intros He Hc Hrecent Hw Hother.
  unfold isOtherPath in Hother.
  repeat (apply andb_true_iff in Hother as [Hother ?]).
  repeat match goal with
         | H : negb _ = true |- _ => apply negb_true_iff in H
         end.
  assert (Hrun : run (Some t) (AppMiddleware now req) =
                 run (Some t)
                   (if negb (paramHas "invitation" (searchParams req))
                    then Ret (Some (Redirect "/welcome" None))
                    else if isLoginPage (pathname req) then loginPageRedirect req
                    else if String.eqb (pathname req) "/viewer-portal"
                    then Ret (Some Next) else Ret None)).
  { unfold AppMiddleware. rewrite Hother. cbn [run].
    repeat match goal with
           | H : _ = false |- _ => rewrite H
           end.
    cbn [userEmailOf userCreatedAtOf]. rewrite He, Hc.
    apply Z.ltb_lt in Hrecent. rewrite Hrecent.
    rewrite (eqb_false_of_neq _ _ Hw). cbn [negb andb].
    destruct (paramHas "invitation" (searchParams req)); reflexivity. }
  rewrite Hrun. split.
  - intros ->. reflexivity.
  - intros -> ->. cbn [negb]. split.
    + destruct (String.eqb (pathname req) "/viewer-portal"); reflexivity.
    + intros next. destruct (String.eqb (pathname req) "/viewer-portal");
        discriminate.
Qed.

Lemma C8_welcome_gate_witness :
  run (Some (newGpToken 1000000))
      (AppMiddleware 1000000 (requestTo "/profile" "" []))
    = Returns (Some (Redirect "/welcome" None))
  /\ run (Some (newGpToken 1000000))
         (AppMiddleware 1000000
            (requestTo "/profile" "?invitation=abc" [("invitation", "abc")]))
     = Returns None.
Proof.
  split.
  - refine (proj1 (C8_welcome_gate 1000000 (requestTo "/profile" "" [])
                     (newGpToken 1000000) 1000000 eq_refl eq_refl _ _ eq_refl)
                  eq_refl); [lia | discriminate].
  - refine (proj1 (proj2 (C8_welcome_gate 1000000
                     (requestTo "/profile" "?invitation=abc" [("invitation", "abc")])
                     (newGpToken 1000000) 1000000 eq_refl eq_refl _ _ eq_refl)
                  eq_refl eq_refl)); [lia | discriminate].
Defined.

(** C10: a request for the path [/] is answered with a redirect to
    [/login] before the session cookie is decoded: the middleware is that
    answer outright, whatever token the cookie holds, and no decoding
    takes place. *)
Theorem C10_root_redirects_first (now : Z) (req : Request) :
  pathname req = "/" ->
  AppMiddleware now req = Ret (Some (Redirect "/login" None))
  /\ forall decoded : option Token,
       run decoded (AppMiddleware now req)
       = Returns (Some (Redirect "/login" None))
       /\ decodings decoded (AppMiddleware now req) = O.
Proof.
  intros Hroot.
  assert (E : AppMiddleware now req = Ret (Some (Redirect "/login" None))).
  { unfold AppMiddleware. now rewrite Hroot. }
  split; [exact E|]. intros decoded. rewrite E. split; reflexivity.
Qed.

Lemma C10_root_redirects_first_witness :
  run (Some (newGpToken 0)) (AppMiddleware 0 (requestTo "/" "" []))
    = Returns (Some (Redirect "/login" None))
  /\ decodings (Some (newGpToken 0)) (AppMiddleware 0 (requestTo "/" "" [])) = O.
Proof.
  exact (proj2 (C10_root_redirects_first 0 (requestTo "/" "" []) eq_refl)
           (Some (newGpToken 0))).
Defined.

End AppClaims.

(* ===================================================================== *)
(** * Facts about the admin magic link                                    *)
(* ===================================================================== *)

Section AdminMagicLinkFacts.
Import Js AdminMagicLink.

Variables trim toLowerCase : string -> string.
Variable isUserAdminAsync : string -> bool.

Local Abbreviation normalize := (AdminMagicLink.normalize trim toLowerCase).
Local Abbreviation identifierOf := (AdminMagicLink.identifierOf trim toLowerCase).
Local Abbreviation verify :=
  (verifyAdminMagicLink trim toLowerCase isUserAdminAsync).
Local Abbreviation create :=
  (createAdminMagicLink trim toLowerCase isUserAdminAsync).
Local Abbreviation step := (AdminMagicLink.step trim toLowerCase isUserAdminAsync).
Local Abbreviation steps := (AdminMagicLink.steps trim toLowerCase isUserAdminAsync).




(** A verification only ever removes the row of the token presented. *)
Lemma verify_table (db : gmap string Row) now token email :
  fst (verify db now token email) = db
  \/ fst (verify db now token email) = delete token db.
Proof.
  unfold verifyAdminMagicLink. repeat case_match; simpl; auto.
Qed.




End AdminMagicLinkFacts.

Section AdminMagicLinkClaims.
Import Js AdminMagicLink.




(** C7, as the claim states it, fails for the admin variant: two links
    issued one after the other for the same address leave two rows under
    the same identifier, both unexpired. *)
Lemma C7_two_admin_links_live :
  length (liveRows twoLinks 2
            (identifierOf asciiTrim asciiToLowerCase "ops@fund.example"))
  = 2%nat.
Proof. vm_compute. reflexivity. Qed.

End AdminMagicLinkClaims.

(* ===================================================================== *)
(** * Facts about the email login link                                    *)
(* ===================================================================== *)

Section EmailLoginFacts.
Import Js EmailLogin.

Lemma rowsFor_nil (ident : string) : rowsFor ident [] = O.
Proof. reflexivity. Qed.

Lemma rowsFor_cons (ident : string) (r : Row) (table : list Row) :
  rowsFor ident (r :: table) =
  ((if decide (identifier r = ident) then 1 else 0) + rowsFor ident table)%nat.
Proof.
  unfold rowsFor. rewrite filter_cons.
  destruct (decide (identifier r = ident)); reflexivity.
Qed.

Lemma rowsFor_create (ident : string) (r : Row) (table : list Row) :
  rowsFor ident (create r table) =
  (rowsFor ident table + if decide (identifier r = ident) then 1 else 0)%nat.
Proof.
  unfold create. induction table as [|x table IH].
  - rewrite rowsFor_nil. simpl. rewrite rowsFor_cons, rowsFor_nil. lia.
  - simpl. rewrite !rowsFor_cons, IH. lia.
Qed.

Lemma rowsFor_deleteMany_same (ident : string) (table : list Row) :
  rowsFor ident (deleteMany ident table) = O.
Proof.
  unfold deleteMany. induction table as [|x table IH]; [reflexivity|].
  rewrite filter_cons. destruct (decide (identifier x <> ident)) as [Hne|_].
  - rewrite rowsFor_cons, IH. destruct (decide (identifier x = ident)); [contradiction|reflexivity].
  - exact IH.
Qed.

Lemma rowsFor_deleteMany_other (ident other : string) (table : list Row) :
  other <> ident ->
  rowsFor other (deleteMany ident table) = rowsFor other table.
Proof.
  intros Hne. unfold deleteMany. induction table as [|x table IH]; [reflexivity|].
  rewrite filter_cons, rowsFor_cons.
  destruct (decide (identifier x <> ident)) as [Hx|Hx].
  - now rewrite rowsFor_cons, IH.
  - rewrite IH. destruct (decide (identifier x = other)) as [E|_]; [|reflexivity].
    exfalso. apply Hx. congruence.
Qed.

Lemma tablesAlong_app (calls more : list DbCall) : forall table,
  tablesAlong table (calls ++ more)
  = tablesAlong table calls ++ tablesAlong (performAll table calls) more.
Proof.
  induction calls as [|c calls IH]; intros table; [reflexivity|].
  cbn [app tablesAlong]. now rewrite IH.
Qed.

Lemma performAll_app (calls more : list DbCall) (table : list Row) :
  performAll table (calls ++ more) = performAll (performAll table calls) more.
Proof. apply fold_left_app. Qed.

(** The calls of an issuance: none, the purge alone, or the purge
    followed by the creation of a row of the same identifier. *)
Lemma callsOf_cases (env : Env) (run : Run) (email url : string) :
  let calls := fst (sendVerificationRequestEmail env run email url) in
  calls = []
  \/ calls = [DeleteMany (toLowerCase env email)]
  \/ calls = [DeleteMany (toLowerCase env email);
              Create (issuedRow env run email url)].
Proof.
  unfold sendVerificationRequestEmail.
  destruct (urlsParse env url); cbn [negb]; [|auto].
  destruct (deleteManyError run); [auto|].
  destruct (createError run); [auto|].
  destruct (sendError run); auto.
Qed.

(** The calls of an issuance in which the URLs parse and both database
    calls resolve. *)
Lemma callsOf_resolved (env : Env) (run : Run) (email url : string) :
  urlsParse env url = true ->
  deleteManyError run = None -> createError run = None ->
  fst (sendVerificationRequestEmail env run email url)
  = [DeleteMany (toLowerCase env email); Create (issuedRow env run email url)].
Proof.
  intros Hurl Hd Hc. unfold sendVerificationRequestEmail.
  rewrite Hurl, Hd, Hc. destruct (sendError run); reflexivity.
Qed.

Lemma purge_counts (ident : string) (table : list Row) (other : string) :
  rowsFor other (deleteMany ident table)
  = if decide (other = ident) then O else rowsFor other table.
Proof.
  destruct (decide (other = ident)) as [->|Hne].
  - apply rowsFor_deleteMany_same.
  - now apply rowsFor_deleteMany_other.
Qed.

Lemma purge_create_counts (row : Row) (table : list Row) (other : string) :
  rowsFor other (create row (deleteMany (identifier row) table))
  = if decide (other = identifier row) then 1%nat else rowsFor other table.
Proof.
  rewrite rowsFor_create, purge_counts.
  destruct (decide (other = identifier row)) as [->|Hne].
  - now rewrite decide_True.
  - rewrite decide_False by congruence. lia.
Qed.

(** One issuance, from a table with one row at most per identifier:
    every table on the way, and the table at the end, is such a table. *)
Lemma issuance_keeps_invariant (env : Env) (run : Run) (email url : string)
    (table : list Row) :
  (forall ident, (rowsFor ident table <= 1)%nat) ->
  let calls := fst (sendVerificationRequestEmail env run email url) in
  oneRowEach (tablesAlong table calls)
  /\ forall ident, (rowsFor ident (performAll table calls) <= 1)%nat.
Proof.
  intros Hinv calls. subst calls.
  assert (Hpurged : forall ident,
            (rowsFor ident (deleteMany (toLowerCase env email) table) <= 1)%nat).
  { intros ident. rewrite purge_counts. destruct (decide _); [lia|apply Hinv]. }
  assert (Hcreated : forall ident,
            (rowsFor ident
               (create (issuedRow env run email url)
                  (deleteMany (toLowerCase env email) table)) <= 1)%nat).
  { intros ident.
    rewrite (purge_create_counts (issuedRow env run email url)).
    destruct (decide _); [lia|apply Hinv]. }
  destruct (callsOf_cases env run email url) as [-> | [-> | ->]];
    (split; [intros t Ht; cbn in Ht|cbn]).
  - contradiction.
  - exact Hinv.
  - destruct Ht as [<- | []]. exact Hpurged.
  - exact Hpurged.
  - destruct Ht as [<- | [<- | []]]; [exact Hpurged|exact Hcreated].
  - exact Hcreated.
Qed.

(** Issuances that run one after the other keep every table on the way
    at one row at most per identifier. *)
Lemma oneAfterAnother_keeps_invariant (env : Env) (issuances : list Issuance) :
  forall table,
    (forall ident, (rowsFor ident table <= 1)%nat) ->
    oneRowEach (tablesAlong table (oneAfterAnother env issuances)).
Proof.
  induction issuances as [|[[run email] url] issuances IH]; intros table Hinv.
  - intros t [].
  - unfold oneAfterAnother. cbn [flat_map callsOf].
    rewrite tablesAlong_app. intros t Ht. apply in_app_or in Ht.
    destruct (issuance_keeps_invariant env run email url table Hinv) as [Hway Hend].
    destruct Ht as [Ht | Ht].
    + now apply Hway.
    + exact (IH _ Hend t Ht).
Qed.

(** Two issuances for one address that overlap, the second purging
    before the first creates, leave two rows under the identifier. *)
Lemma overlap_two_rows (ident : string) (row1 row2 : Row) (table : list Row) :
  identifier row1 = ident -> identifier row2 = ident ->
  Interleaved [DeleteMany ident; Create row1] [DeleteMany ident; Create row2]
    [DeleteMany ident; DeleteMany ident; Create row1; Create row2]
  /\ rowsFor ident
       (performAll table
          [DeleteMany ident; DeleteMany ident; Create row1; Create row2])
     = 2%nat.
Proof.
  intros H1 H2. split.
  - apply interleaved_left, interleaved_right, interleaved_left,
      interleaved_right, interleaved_nil.
  - cbn [performAll fold_left perform].
    rewrite !rowsFor_create, !rowsFor_deleteMany_same, H1, H2.
    now rewrite decide_True.
Qed.

(** C7 (amended): for the email-login variant, an issuance whose two
    database calls resolve purges the rows of its identifier (the
    lowercased address) and then creates the new one, so that exactly one
    row is stored under that identifier afterwards and the rows of every
    other identifier are as before.  When issuances run one after the
    other, from a table with one row at most per identifier (the empty
    one, say), every table the store goes through, between the purge and
    the creation and after an issuance that failed included, holds one
    row at most, live or not, per identifier.  The purge and the creation
    are two separate calls, so this needs the issuances not to overlap:
    of two issuances for one address, the second purging before the first
    creates, both rows stay.  The admin-magic-link variant creates its
    row without purging. *)
Theorem C7_email_login_one_row (env : Env) (table : list Row)
    (run : Run) (email url : string) :
  let ident := toLowerCase env email in
  let calls := fst (sendVerificationRequestEmail env run email url) in
  (urlsParse env url = true ->
   deleteManyError run = None -> createError run = None ->
     calls = [DeleteMany ident; Create (issuedRow env run email url)]
     /\ rowsFor ident (performAll table calls) = 1%nat
     /\ forall other, other <> ident ->
          rowsFor other (performAll table calls) = rowsFor other table)
  /\ (forall issuances start,
        (forall other, (rowsFor other start <= 1)%nat) ->
        oneRowEach (tablesAlong start (oneAfterAnother env issuances)))
  /\ (urlsParse env url = true ->
      deleteManyError run = None -> createError run = None ->
      forall run2, deleteManyError run2 = None -> createError run2 = None ->
        exists overlapped,
          Interleaved calls
            (fst (sendVerificationRequestEmail env run2 email url)) overlapped
          /\ rowsFor ident (performAll table overlapped) = 2%nat).
Proof.
  intros ident calls. subst ident calls. split; [|split].
  - intros Hurl Hd Hc. rewrite (callsOf_resolved env run email url Hurl Hd Hc).
    split; [reflexivity|].
    cbn [performAll fold_left perform].
    change (toLowerCase env email) with (identifier (issuedRow env run email url)).
    split.
    + rewrite purge_create_counts. now rewrite decide_True.
    + intros other Hne. rewrite purge_create_counts. now rewrite decide_False.
  - intros issuances start. apply oneAfterAnother_keeps_invariant.
  - intros Hurl Hd Hc run2 Hd2 Hc2.
    rewrite (callsOf_resolved env run email url Hurl Hd Hc),
      (callsOf_resolved env run2 email url Hurl Hd2 Hc2).
    eexists. now apply overlap_two_rows.
Qed.

Lemma C7_email_login_one_row_witness :
  rowsFor "lp@fund.example"
    (performAll staleRows
       (fst (sendVerificationRequestEmail mailEnv (smoothRun 0 "cc")
               "LP@Fund.Example" "https://app.example/cb")))
  = 1%nat.
Proof.
  exact (proj1 (proj2 (proj1 (C7_email_login_one_row mailEnv staleRows
                                (smoothRun 0 "cc")
                                "LP@Fund.Example" "https://app.example/cb")
                             eq_refl eq_refl eq_refl))).
Defined.

End EmailLoginFacts.

(* ===================================================================== *)
(** * Facts about the rate limiter                                        *)
(* ===================================================================== *)

Section RateLimiterFacts.
Import RateLimiter.

Variable cfg : Config.

(** The first request of a window opens it with a count of one. *)
Lemma limiter_fresh (store : gmap (string * string * string) Counter)
    (now : Z) (ip url : string) :
  fresh cfg store now ip url ->
  limiter cfg store now ip url =
  (<[(keyPrefix cfg, ip, url) := {| count := 1; windowStart := now |}]> store,
   respond cfg {| count := 1; windowStart := now |} now ip url).
Proof.
  unfold fresh, limiter. destruct (store !! _) as [c|]; [|reflexivity].
  intros Hover. apply Z.ltb_lt in Hover. rewrite Hover. reflexivity.
Qed.

(** A request inside the window adds one to the count. *)
Lemma limiter_in_window (store : gmap (string * string * string) Counter)
    (now : Z) (ip url : string) (k opened : Z) :
  store !! (keyPrefix cfg, ip, url) = Some {| count := k; windowStart := opened |} ->
  now <= opened + windowMs cfg ->
  limiter cfg store now ip url =
  (<[(keyPrefix cfg, ip, url) := {| count := k + 1; windowStart := opened |}]> store,
   respond cfg {| count := k + 1; windowStart := opened |} now ip url).
Proof.
  intros Hc Hin. unfold limiter. rewrite Hc. cbn [windowStart count].
  apply Z.ltb_ge in Hin. rewrite Hin. reflexivity.
Qed.

(** The decision only depends on the counter of the key asked for, which
    is also the only counter the limiter writes. *)
Lemma limiter_local (store1 store2 : gmap (string * string * string) Counter)
    (now : Z) (ip url : string) :
  store1 !! (keyPrefix cfg, ip, url) = store2 !! (keyPrefix cfg, ip, url) ->
  snd (limiter cfg store1 now ip url) = snd (limiter cfg store2 now ip url).
Proof. intros H. unfold limiter. now rewrite H. Qed.

Lemma limiter_frame (store : gmap (string * string * string) Counter)
    (now : Z) (ip url : string) (key : string * string * string) :
  key <> (keyPrefix cfg, ip, url) ->
  fst (limiter cfg store now ip url) !! key = store !! key.
Proof. intros H. unfold limiter. cbn [fst]. now rewrite lookup_insert_ne. Qed.

Lemma serve_frame (ip url : string) (key : string * string * string) (times : list Z) :
  key <> (keyPrefix cfg, ip, url) ->
  forall store : gmap (string * string * string) Counter,
    fst (serve cfg store ip url times) !! key = store !! key.
Proof.
  intros Hkey. induction times as [|now rest IH]; intros store; [reflexivity|].
  cbn [serve].
  destruct (limiter cfg store now ip url) as [store' d] eqn:El.
  specialize (IH store').
  destruct (serve cfg store' ip url rest) as [store'' ds].
  cbn [fst] in *. rewrite IH.
  change store' with (fst (store', d)). rewrite <- El.
  now apply limiter_frame.
Qed.

(** Inside one window the [i]-th further request is answered for the
    count [k + 1 + i]. *)
Lemma serve_in_window (ip url : string) (opened : Z) (times : list Z) :
  Forall (fun now => now <= opened + windowMs cfg) times ->
  forall (store : gmap (string * string * string) Counter) (k : Z),
    store !! (keyPrefix cfg, ip, url) = Some {| count := k; windowStart := opened |} ->
    snd (serve cfg store ip url times) =
    imap (fun i now =>
            respond cfg {| count := k + 1 + Z.of_nat i; windowStart := opened |}
              now ip url) times.
Proof.
  induction 1 as [|now rest Hnow _ IH]; intros store k Hk; [reflexivity|].
  cbn [serve]. rewrite (limiter_in_window _ _ _ _ _ _ Hk Hnow).
  specialize (IH (<[(keyPrefix cfg, ip, url) :=
                      {| count := k + 1; windowStart := opened |}]> store)
                 (k + 1) (lookup_insert_eq _ _ _)).
  destruct (serve cfg _ ip url rest) as [store'' ds]. cbn [snd] in *.
  rewrite imap_cons. f_equal.
  - now rewrite Z.add_0_r.
  - rewrite IH. apply imap_ext. intros i now' _. cbn.
    do 2 f_equal. lia.
Qed.

End RateLimiterFacts.

Section RateLimiterClaims.
Import RateLimiter.

Lemma respond_allowed (cfg : Config) (c : Counter) now ip url :
  isAllowed (respond cfg c now ip url) = (count c <=? maxRequests cfg).
Proof. unfold respond. destruct (count c <=? maxRequests cfg); reflexivity. Qed.

(** C4: with [maxRequests] = 3, the first four requests of a window for
    one (IP, endpoint) key are answered: allowed with 2 remaining,
    allowed with 1, allowed with 0, rejected with a 429 whose body holds
    the error text and a [retryAfter]; however many requests fall in the
    window, exactly the first three are allowed; and what the limiter
    answers for another IP or another endpoint is what it would have
    answered without the first key's requests, a fresh key starting at 2
    remaining. *)
Theorem C4_rate_limit_boundary (cfg : Config)
    (store : gmap (string * string * string) Counter)
    (ip url : string) (t1 t2 t3 t4 : Z) :
  maxRequests cfg = 3 ->
  fresh cfg store t1 ip url ->
  t2 <= t1 + windowMs cfg -> t3 <= t1 + windowMs cfg -> t4 <= t1 + windowMs cfg ->
  let windowEnd := t1 + windowMs cfg in
  snd (serve cfg store ip url [t1; t2; t3; t4]) =
    [ Allowed {| X_RateLimit_Limit := 3; X_RateLimit_Remaining := 2;
                  X_RateLimit_Reset := secondsUntil t1 windowEnd |};
      Allowed {| X_RateLimit_Limit := 3; X_RateLimit_Remaining := 1;
                  X_RateLimit_Reset := secondsUntil t2 windowEnd |};
      Allowed {| X_RateLimit_Limit := 3; X_RateLimit_Remaining := 0;
                  X_RateLimit_Reset := secondsUntil t3 windowEnd |};
      Rejected 429
        {| error := "Too many requests"; message := "Rate limit exceeded...";
           retryAfter := secondsUntil t4 windowEnd |}
        {| event := "RATE_LIMIT_EXCEEDED"; severity := "WARNING";
           ipAddress := ip; endpoint := url |} ]
  /\ (forall later : list Z,
        Forall (fun now => now <= windowEnd) later ->
        forall (i : nat) (d : Decision),
          snd (serve cfg store ip url (t1 :: later)) !! i = Some d ->
          isAllowed d = bool_decide (i < 3)%nat)
  /\ (forall (ip' url' : string) (times : list Z) (now' : Z),
        (ip', url') <> (ip, url) ->
        snd (limiter cfg (fst (serve cfg store ip url times)) now' ip' url')
        = snd (limiter cfg store now' ip' url')
        /\ (fresh cfg store now' ip' url' ->
            snd (limiter cfg (fst (serve cfg store ip url times)) now' ip' url')
            = Allowed {| X_RateLimit_Limit := 3; X_RateLimit_Remaining := 2;
                          X_RateLimit_Reset :=
                            secondsUntil now' (now' + windowMs cfg) |})).
Proof.
  intros Hmax Hfresh H2 H3 H4 windowEnd. subst windowEnd.
  assert (Hrun : forall later,
             Forall (fun now => now <= t1 + windowMs cfg) later ->
             snd (serve cfg store ip url (t1 :: later)) =
             respond cfg {| count := 1; windowStart := t1 |} t1 ip url
             :: imap (fun i now =>
                        respond cfg {| count := 1 + 1 + Z.of_nat i;
                                       windowStart := t1 |} now ip url) later).
  { intros later Hlater. cbn [serve]. rewrite (limiter_fresh _ _ _ _ _ Hfresh).
    pose proof (serve_in_window cfg ip url t1 later Hlater
                  (<[(keyPrefix cfg, ip, url) :=
                       {| count := 1; windowStart := t1 |}]> store)
                  1 (lookup_insert_eq _ _ _)) as Hrest.
    destruct (serve cfg _ ip url later) as [store'' ds]. cbn [snd] in *.
    now rewrite Hrest. }
  split; [|split].
  - rewrite Hrun by (repeat constructor; assumption).
    unfold respond. cbn. rewrite Hmax. reflexivity.
  - intros later Hlater i d. rewrite (Hrun later Hlater).
    destruct i as [|j].
    + intros [= <-]. rewrite respond_allowed, Hmax. reflexivity.
    + change ((?x :: ?l) !! S j) with (l !! j). rewrite list_lookup_imap.
      destruct (later !! j) as [now|]; [|discriminate].
      intros [= <-]. rewrite respond_allowed, Hmax. cbn [count].
      destruct (Z.leb_spec (1 + 1 + Z.of_nat j) 3).
      * rewrite bool_decide_eq_true_2 by lia. reflexivity.
      * rewrite bool_decide_eq_false_2 by lia. reflexivity.
  - intros ip' url' times now' Hother.
    assert (Hkey : (keyPrefix cfg, ip', url') <> (keyPrefix cfg, ip, url))
      by congruence.
    assert (Hsame : snd (limiter cfg (fst (serve cfg store ip url times))
                           now' ip' url')
                    = snd (limiter cfg store now' ip' url'))
      by (apply limiter_local; now apply serve_frame).
    split; [exact Hsame|].
    intros Hfresh'. rewrite Hsame, (limiter_fresh _ _ _ _ _ Hfresh').
    unfold respond. cbn. rewrite Hmax. reflexivity.
Qed.

Lemma C4_rate_limit_boundary_witness :
  map isAllowed
    (snd (serve boundaryLimiter ∅ "10.8.0.10" "/api/test-boundary"
            [1000; 2000; 3000; 4000]))
  = [true; true; true; false].
Proof.
  pose proof (C4_rate_limit_boundary boundaryLimiter ∅ "10.8.0.10"
                "/api/test-boundary" 1000 2000 3000 4000 eq_refl I) as H.
  cbv zeta in H. rewrite (proj1 (H ltac:(simpl; lia) ltac:(simpl; lia) ltac:(simpl; lia))).
  reflexivity.
Defined.

End RateLimiterClaims.

(* ===================================================================== *)
(** * Facts about the admin-magic-verify redirect                         *)
(* ===================================================================== *)

Section AdminMagicVerifyClaims.
Import Js AdminMagicVerify.

Example redirectTarget_rejected :
  map redirectTarget
    [Some "https://evil.com"; Some "//evil.com"; Some "/api/secret"; Some "hub"; None]
  = ["/hub"; "/hub"; "/hub"; "/hub"; "/hub"].
Proof. reflexivity. Qed.

Example redirectTarget_accepted :
  map redirectTarget
    [Some "/dashboard"; Some "/settings/x"; Some "/datarooms/1"; Some "/admin/y";
     Some "/hub"]
  = ["/dashboard"; "/settings/x"; "/datarooms/1"; "/admin/y"; "/hub"].
Proof. reflexivity. Qed.

(** C2: after a successful verification, a [redirect] value that does not
    begin with a slash (an absolute URL, a path without leading slash),
    that begins with two slashes (a protocol-relative URL) or that is
    under none of the allowed prefixes sends to the default [/hub], which
    is then not the value supplied; a value that begins with a single
    slash and is under one of the prefixes [/hub], [/dashboard],
    [/settings], [/datarooms], [/admin] is the redirect target itself. *)
Theorem C2_redirect_allow_list (trim toLowerCase : string -> string)
    (isUserAdminAsync : string -> bool)
    (db : gmap string AdminMagicLink.Row) (now : Z)
    (token email redirect : string) :
  snd (AdminMagicLink.verifyAdminMagicLink trim toLowerCase isUserAdminAsync
         db now token email)
    = true ->
  let target :=
    snd (verifyThenRedirect trim toLowerCase isUserAdminAsync
           db now token email (Some redirect)) in
  (startsWith redirect "/" = false
   \/ startsWith redirect "//" = true
   \/ (forall p, In p ["/hub"; "/dashboard"; "/settings"; "/datarooms"; "/admin"] ->
         startsWith redirect p = false) ->
   target = Some "/hub" /\ redirect <> "/hub")
  /\ (startsWith redirect "/" = true ->
      startsWith redirect "//" = false ->
      (exists p, In p ["/hub"; "/dashboard"; "/settings"; "/datarooms"; "/admin"]
                 /\ startsWith redirect p = true) ->
      target = Some redirect).
Proof.
  intros Hok target. subst target. unfold verifyThenRedirect.
  destruct (AdminMagicLink.verifyAdminMagicLink _ _ _ _ _ _ _) as [db' ok].
  cbn [snd] in *. subst ok. unfold redirectTarget, isRelativePath.
  split.
  - intros Hbad.
    assert (Hno : startsWith redirect "/" && negb (startsWith redirect "//")
                  && hasAllowedPrefix redirect = false).
    { destruct Hbad as [H | [H | H]].
      - now rewrite H.
      - rewrite H. now rewrite andb_false_r.
      - apply andb_false_iff. right. unfold hasAllowedPrefix.
        apply not_true_is_false. intros He.
        apply existsb_exists in He as (p & Hin & Hp).
        rewrite (H p Hin) in Hp. discriminate. }
    rewrite Hno. split; [reflexivity|].
    intros ->. revert Hno. vm_compute. discriminate.
  - intros H1 H2 (p & Hin & Hp).
    rewrite H1, H2. cbn [negb andb].
    assert (Hyes : hasAllowedPrefix redirect = true)
      by (apply existsb_exists; eauto).
    now rewrite Hyes.
Qed.

Lemma C2_redirect_allow_list_witness :
  snd (verifyThenRedirect asciiTrim asciiToLowerCase everybodyIsAdmin
         oneLink 1000 "tok-1"
         "ops@fund.example" (Some "//evil.com")) = Some "/hub"
  /\ snd (verifyThenRedirect asciiTrim asciiToLowerCase everybodyIsAdmin
            oneLink 1000 "tok-1"
            "ops@fund.example" (Some "/datarooms/1")) = Some "/datarooms/1".
Proof.
  split.
  - refine (proj1 (proj1 (C2_redirect_allow_list asciiTrim asciiToLowerCase
                            everybodyIsAdmin oneLink 1000
                            "tok-1" "ops@fund.example" "//evil.com" eq_refl) _)).
    right. left. reflexivity.
  - refine (proj2 (C2_redirect_allow_list asciiTrim asciiToLowerCase
                     everybodyIsAdmin oneLink 1000
                     "tok-1" "ops@fund.example" "/datarooms/1" eq_refl)
              eq_refl eq_refl _).
    exists "/datarooms". split; [simpl; tauto | reflexivity].
Defined.

End AdminMagicVerifyClaims.

(* ===================================================================== *)
(** * Further properties of the code                                      *)
(* ===================================================================== *)

Section ProxyExtras.
Import Js Proxy.

(** ** [escapePath] *)

(** X1: a pattern built by [escapePath] is made of ordinary characters
    and backslash-escaped syntax characters only, and the text it stands
    for is the text that was escaped: the regular expression made from a
    blocked path matches that path literally. *)
Lemma escapePath_literal (s : string) :
  literalOfPattern (escapePath s) = Some s.
Proof.
  induction s as [|c r IH]; [reflexivity|].
  cbn [escapePath]. destruct (isRegexMeta c) eqn:Hm.
  - cbn [literalOfPattern]. rewrite Hm, IH. reflexivity.
  - cbn [literalOfPattern]. rewrite Hm, IH.
    destruct (Ascii.eqb_spec c "092") as [->|_]; [discriminate|reflexivity].
Qed.
End ProxyExtras.
Section ProxyExtras2.
Import Js Proxy.

(** ** Validated client IP *)

Lemma spanDigits_chars (s : string) :
  allChars isIpChar (snd (spanDigits s)) = true -> allChars isIpChar s = true.
Proof.
  induction s as [|c r IH]; [reflexivity|].
  cbn [spanDigits]. destruct (isDigit c) eqn:Hd.
  - destruct (spanDigits r) as [n t]. cbn [snd] in *. intros Ht.
    cbn [allChars]. rewrite (IH Ht), andb_true_r.
    unfold isIpChar, isIpv6Char. rewrite Hd. now rewrite !orb_true_r.
  - intros H. exact H.
Qed.

Lemma digitGroup_chars (s t : string) :
  digitGroup s = Some t ->
  allChars isIpChar t = true -> allChars isIpChar s = true.
Proof.
  unfold digitGroup. intros H Ht. apply spanDigits_chars.
  destruct (spanDigits s) as [n u]. cbn [snd].
  destruct ((1 <=? n) && (n <=? 3))%nat; [|discriminate].
  now injection H as ->.
Qed.

Lemma dottedGroup_chars (s t : string) :
  dottedGroup s = Some t ->
  allChars isIpChar t = true -> allChars isIpChar s = true.
Proof.
  unfold dottedGroup. intros H Ht.
  destruct (digitGroup s) as [[|c u]|] eqn:Hg; try discriminate.
  destruct (Ascii.eqb_spec c ".") as [->|]; [|discriminate].
  injection H as ->. apply (digitGroup_chars _ _ Hg).
  cbn [allChars]. now rewrite Ht.
Qed.

Lemma ipv4Pattern_chars (s : string) :
  ipv4Pattern_test s = true -> allChars isIpChar s = true.
Proof.
  unfold ipv4Pattern_test. intros H.
  destruct (dottedGroup s) as [s1|] eqn:H1; [|discriminate].
  destruct (dottedGroup s1) as [s2|] eqn:H2; [|discriminate].
  destruct (dottedGroup s2) as [s3|] eqn:H3; [|discriminate].
  destruct (digitGroup s3) as [[|]|] eqn:H4; try discriminate.
  apply (dottedGroup_chars _ _ H1), (dottedGroup_chars _ _ H2),
    (dottedGroup_chars _ _ H3), (digitGroup_chars _ _ H4). reflexivity.
Qed.

Lemma ipv4Pattern_nonempty : ipv4Pattern_test "" = false.
Proof. reflexivity. Qed.

Lemma allChars_weaken (p q : ascii -> bool) (s : string) :
  (forall c, p c = true -> q c = true) ->
  allChars p s = true -> allChars q s = true.
Proof.
  intros Hpq. induction s as [|c r IH]; [reflexivity|].
  cbn [allChars]. intros H. apply andb_true_iff in H as [Hc Hr].
  now rewrite (Hpq c Hc), IH.
Qed.

Lemma validateClientIP_checked (env : Env) (req : Request) (ip : string) :
  validateClientIP env req = Some ip ->
  clientIpCandidate env req = Some ip
  /\ ip <> ""
  /\ (ipv4Pattern_test ip = true \/ ipv6Pattern_test ip = true)
  /\ allChars isIpChar ip = true.
Proof.
  unfold validateClientIP.
  destruct (clientIpCandidate env req) as [v|]; [|discriminate].
  destruct (ipv4Pattern_test v) eqn:H4; cbn [negb andb].
  - intros [= ->]. repeat split; auto.
    + intros ->. discriminate.
    + now apply ipv4Pattern_chars.
  - destruct (ipv6Pattern_test v) eqn:H6; cbn [negb]; [|discriminate].
    intros [= ->]. repeat split; auto.
    + intros ->. discriminate.
    + unfold ipv6Pattern_test in H6. apply andb_true_iff in H6 as [_ H6].
      apply (allChars_weaken isIpv6Char); [|exact H6].
      intros c Hc. unfold isIpChar. now rewrite Hc.
Qed.

(** X2: whatever [validateClientIP] returns is the value taken from the
    headers, is not empty, passes the IPv4 or the IPv6 pattern, and is
    made of hexadecimal digits, colons and dots only. *)
Theorem validateClientIP_sound (env : Env) (req : Request) (ip : string) :
  validateClientIP env req = Some ip ->
  clientIpCandidate env req = Some ip
  /\ ip <> ""
  /\ (ipv4Pattern_test ip = true \/ ipv6Pattern_test ip = true)
  /\ allChars isIpChar ip = true.
Proof. apply validateClientIP_checked. Qed.

Lemma validateClientIP_sound_witness :
  clientIpCandidate plainEnv forwardedRequest = Some "203.0.113.7"
  /\ "203.0.113.7" <> ""
  /\ (ipv4Pattern_test "203.0.113.7" = true \/ ipv6Pattern_test "203.0.113.7" = true)
  /\ allChars isIpChar "203.0.113.7" = true.
Proof.
  exact (validateClientIP_sound plainEnv forwardedRequest "203.0.113.7" eq_refl).
Defined.

Lemma sanitizePath_no_markup_witness :
  hasChar "<" "/search/scriptx/script" = false.
Proof.
  exact (sanitizePath_no_markup "/search/%3Cscript%3Ex%3C/script%3E"
           "/search/scriptx/script" "<" eq_refl eq_refl).
Defined.

End ProxyExtras2.
Section ProxyExtras3.
Import Js Proxy.

(** ** Paths the sanitizer leaves alone *)

Lemma removeDotRuns_id (s : string) :
  includes s ".." = false ->
  removeDotRuns 0 s = s
  /\ (headIs "." s = false -> removeDotRuns 1 s = String "." s).
Proof.
  induction s as [|c r IH]; intros H; [split; reflexivity|].
  rewrite includes_pair_cons in H. apply orb_false_iff in H as [Hc Hr].
  destruct (IH Hr) as [IH0 IH1]. cbn [removeDotRuns].
  destruct (Ascii.eqb_spec c ".") as [->|Hne].
  - cbn [andb] in Hc. split; [|discriminate].
    now apply IH1.
  - split; [|intros _]; cbn [flushDots]; now rewrite IH0.
Qed.

Lemma collapseSlashes_id (s : string) :
  includes s "//" = false ->
  collapseSlashes false s = s
  /\ (headIs "/" s = false -> collapseSlashes true s = s).
Proof.
  induction s as [|c r IH]; intros H; [split; reflexivity|].
  rewrite includes_pair_cons in H. apply orb_false_iff in H as [Hc Hr].
  destruct (IH Hr) as [IH0 IH1]. cbn [collapseSlashes].
  destruct (Ascii.eqb_spec c "/") as [->|Hne].
  - cbn [andb] in Hc. split; [|discriminate]. now rewrite (IH1 Hc).
  - split; [|intros _]; now rewrite IH0.
Qed.

Lemma decodeURIComponent_id (s : string) :
  hasChar "%" s = false -> decodeURIComponent s = Returns s.
Proof.
  unfold decodeURIComponent.
  induction s as [|c r IH]; [reflexivity|].
  cbn [hasChar]. intros H. apply orb_false_iff in H as [Hc Hr].
  cbn [decodeFrom]. rewrite Hc, (IH Hr). reflexivity.
Qed.

Lemma removeChars_id (p : ascii -> bool) (s : string) :
  allChars (fun c => negb (p c)) s = true -> removeChars p s = s.
Proof.
  induction s as [|c r IH]; [reflexivity|].
  cbn [allChars removeChars]. intros H. apply andb_true_iff in H as [Hc Hr].
  apply negb_true_iff in Hc. now rewrite Hc, IH.
Qed.

(** X4: a path with no two dots in a row, no two slashes in a row, no
    percent sign, no angle bracket and no quote is returned unchanged by
    [sanitizePath]. *)
Theorem sanitizePath_clean_id (path : string) :
  includes path ".." = false ->
  includes path "//" = false ->
  hasChar "%" path = false ->
  allChars (fun c => negb (isMarkupChar c)) path = true ->
  sanitizePath path = Returns path.
Proof.
  intros Hdots Hslashes Hpct Hmarkup. unfold sanitizePath.
  rewrite (proj1 (removeDotRuns_id path Hdots)).
  rewrite (proj1 (collapseSlashes_id path Hslashes)).
  rewrite (decodeURIComponent_id path Hpct).
  cbn. now rewrite removeChars_id.
Qed.

Lemma sanitizePath_clean_id_witness :
  sanitizePath "/datarooms/42/files.v2" = Returns "/datarooms/42/files.v2".
Proof.
  exact (sanitizePath_clean_id "/datarooms/42/files.v2"
           eq_refl eq_refl eq_refl eq_refl).
Defined.

(** ** Literal prefixes survive sanitizing *)

Lemma startsWith_append (p r : string) : startsWith (p +:+ r) p = true.
Proof.
  unfold startsWith. induction p as [|c p IH]; [now destruct r|].
  change (String.prefix (String c p) (String c (p +:+ r)) = true).
  cbn [String.prefix]. destruct (ascii_dec c c); [exact IH|contradiction].
Qed.

Ltac keeps_prefix prefix :=
  let H := fresh in let Hs := fresh in
  intros H Hs; apply startsWith_app in H; destruct H as [? ->];
  unfold sanitizePath, decodeURIComponent in Hs;
  cbv [String.append] in Hs; cbn in Hs;
  match type of Hs with
  | context [decodeFrom 0 128 191 ?t] =>
      destruct (decodeFrom 0 128 191 t); cbn in Hs; [|discriminate]
  end;
  injection Hs as <-; apply (startsWith_append prefix).

Lemma sanitizePath_keeps_view (path p : string) :
  startsWith path "/view/" = true ->
  sanitizePath path = Returns p -> startsWith p "/view/" = true.
Proof. keeps_prefix "/view/". Qed.

Lemma sanitizePath_keeps_verify (path p : string) :
  startsWith path "/verify" = true ->
  sanitizePath path = Returns p -> startsWith p "/verify" = true.
Proof. keeps_prefix "/verify". Qed.

Lemma sanitizePath_keeps_unsubscribe (path p : string) :
  startsWith path "/unsubscribe" = true ->
  sanitizePath path = Returns p -> startsWith p "/unsubscribe" = true.
Proof. keeps_prefix "/unsubscribe". Qed.

Lemma sanitizePath_keeps_ingest (path p : string) :
  startsWith path "/ingest/" = true ->
  sanitizePath path = Returns p -> startsWith p "/ingest/" = true.
Proof. keeps_prefix "/ingest/". Qed.

End ProxyExtras3.
Section ProxyExtras4.
Import Js Proxy.

Ltac unfold_proxy :=
  unfold proxy, proxyBody, mbind, result_bind, Js.bind.

(** ** What the proxy passes on *)

(** The request that the proxy dispatches. *)
Lemma proxy_dispatched_request (env : Env) (req req' : Request) (d : Downstream) :
  proxy env req = Dispatch d req' ->
  req' = match validateClientIP env req with
         | Some ip => setClientIp ip req
         | None => req
         end.
Proof.
  unfold_proxy. intros H.
  destruct (validateClientIP env req) as [ip|] eqn:Hv.
  - pose proof (validateClientIP_checked env req ip Hv) as (_ & Hne & _ & _).
    assert (Ht : truthy (Some ip) = true).
    { cbn. now rewrite (eqb_false_of_neq _ _ Hne). }
    rewrite Ht in H. revert H. repeat case_match; congruence.
  - revert H. repeat case_match; congruence.
Qed.

(** X3: the request the proxy dispatches is the incoming one, with
    [x-client-ip] set exactly when a client IP was validated and then to
    that IP; without a valid IP the request, an [x-client-ip] header sent
    by the client included, is passed on untouched.  The client IP is
    what [validateClientIP] makes of the headers, with the built-in
    [trim] of the language, whatever it strips. *)
Theorem proxy_client_ip_header (env : Env) (req req' : Request) (d : Downstream) :
  proxy env req = Dispatch d req' ->
  match validateClientIP env req with
  | Some ip => req' = setClientIp ip req /\ allChars isIpChar ip = true
  | None => req' = req
  end.
Proof.
  intros H. apply proxy_dispatched_request in H.
  destruct (validateClientIP env req) as [ip|] eqn:Hv; [|exact H].
  split; [exact H|].
  now destruct (validateClientIP_checked env req ip Hv) as (_ & _ & _ & Hchars).
Qed.

Lemma proxy_client_ip_header_witness :
  match validateClientIP plainEnv forwardedRequest with
  | Some ip =>
      setClientIp "203.0.113.7" forwardedRequest = setClientIp ip forwardedRequest
      /\ allChars isIpChar ip = true
  | None => setClientIp "203.0.113.7" forwardedRequest = forwardedRequest
  end.
Proof.
  exact (proxy_client_ip_header plainEnv forwardedRequest
           (setClientIp "203.0.113.7" forwardedRequest) ToAppMiddleware eq_refl).
Defined.

(** ** When the proxy answers 500 *)

Lemma isCustomDomain_throws (env : Env) (h e : string) :
  isCustomDomain env h = Throws e ->
  truthy (NEXTAUTH_URL env) = true
  /\ urlHostname env (orElse (NEXTAUTH_URL env) "") = None.
Proof.
  unfold isCustomDomain, mbind, result_bind, Js.bind.
  repeat case_match; try discriminate; auto.
Qed.

(** X6: when the path does not percent-decode the proxy answers 500,
    whatever the Host header; and, as far as its own steps up to the
    dispatch go, it answers 500 only then, or when the host is valid and
    [NEXTAUTH_URL] is set to something [new URL] refuses. *)
Theorem proxy_internal_error (env : Env) (req : Request) :
  (forall e, sanitizePath (pathname req) = Throws e ->
     proxy env req = ErrorResponse "Internal server error" 500)
  /\ (forall message, proxy env req = ErrorResponse message 500 ->
        (exists e, sanitizePath (pathname req) = Throws e)
        \/ (validateHost (host req) = true
            /\ truthy (NEXTAUTH_URL env) = true
            /\ urlHostname env (orElse (NEXTAUTH_URL env) "") = None)).
Proof.
  split.
  - intros e He. unfold_proxy. now rewrite He.
  - intros message. unfold_proxy.
    destruct (sanitizePath (pathname req)) as [p|e]; [|eauto].
    destruct (validateHost (host req)); cbn [negb]; [|discriminate].
    destruct (isAnalyticsPath p); [discriminate|].
    destruct (isWebhookPath env (host req)); [discriminate|].
    destruct (isCustomDomain env _) as [b|e] eqn:Hc.
    + repeat case_match; intros; congruence.
    + intros _. right. split; [reflexivity|].
      exact (isCustomDomain_throws _ _ _ Hc).
Qed.

Lemma proxy_internal_error_witness :
  proxy plainEnv (plainRequest "/files/100%" None None)
  = ErrorResponse "Internal server error" 500.
Proof.
  exact (proj1 (proxy_internal_error plainEnv
                  (plainRequest "/files/100%" None None))
           "URIError" eq_refl).
Defined.

(** ** Paths that never reach the app middleware *)

(** X7: a request whose path starts with [/view/], [/verify] or
    [/unsubscribe] is never handed to the app middleware. *)
Theorem proxy_exempt_paths (env : Env) (req : Request) :
  startsWith (pathname req) "/view/" = true
  \/ startsWith (pathname req) "/verify" = true
  \/ startsWith (pathname req) "/unsubscribe" = true ->
  forall req', proxy env req <> Dispatch ToAppMiddleware req'.
Proof.
  intros Hprefix req'. unfold_proxy.
  destruct (sanitizePath (pathname req)) as [p|e] eqn:Hs; [|discriminate].
  assert (Hp : negb (startsWith p "/view/") && negb (startsWith p "/verify")
               && negb (startsWith p "/unsubscribe") = false).
  { destruct Hprefix as [H | [H | H]].
    - now rewrite (sanitizePath_keeps_view _ _ H Hs).
    - rewrite (sanitizePath_keeps_verify _ _ H Hs). now rewrite andb_false_r.
    - rewrite (sanitizePath_keeps_unsubscribe _ _ H Hs). now rewrite andb_false_r. }
  rewrite Hp. repeat case_match; congruence.
Qed.

Lemma proxy_exempt_paths_witness :
  proxy plainEnv (plainRequest "/view/abc123" (Some "localhost") None)
    = Dispatch CSPResponse (plainRequest "/view/abc123" (Some "localhost") None)
  /\ forall req',
       proxy plainEnv (plainRequest "/view/abc123" (Some "localhost") None)
       <> Dispatch ToAppMiddleware req'.
Proof.
  split; [reflexivity|].
  exact (proxy_exempt_paths plainEnv
           (plainRequest "/view/abc123" (Some "localhost") None)
           (or_introl eq_refl)).
Defined.

(** ** Analytics ingestion comes first *)

(** X8: a request with a valid host whose path starts with [/ingest/] and
    percent-decodes goes to the PostHog middleware, whatever the host
    is. *)
Theorem proxy_ingest_first (env : Env) (req : Request) (p : string) :
  startsWith (pathname req) "/ingest/" = true ->
  sanitizePath (pathname req) = Returns p ->
  validateHost (host req) = true ->
  exists req', proxy env req = Dispatch ToPostHogMiddleware req'.
Proof.
  intros Hprefix Hs Hh. unfold_proxy. rewrite Hs, Hh. cbn [negb].
  unfold isAnalyticsPath. rewrite (sanitizePath_keeps_ingest _ _ Hprefix Hs).
  eauto.
Qed.

Lemma proxy_ingest_first_witness :
  exists req',
    proxy plainEnv (plainRequest "/ingest/e" (Some "tenant.example.com") None)
    = Dispatch ToPostHogMiddleware req'.
Proof.
  exact (proxy_ingest_first plainEnv
           (plainRequest "/ingest/e" (Some "tenant.example.com") None)
           "/ingest/e" eq_refl eq_refl eq_refl).
Defined.

(** ** Infrastructure hosts *)

(** X9: outside development mode, a host that (before its port) ends with
    one of the known infrastructure patterns is not a custom domain, and
    the proxy never hands its requests to the domain middleware. *)
Theorem proxy_infrastructure_host (env : Env) (req : Request) (h suffix : string) :
  NODE_ENV env <> Some "development" ->
  host req = Some h ->
  In suffix knownNonCustomPatterns ->
  endsWith (splitFirst ":" h) suffix = true ->
  isCustomDomain env h = Returns false
  /\ forall req', proxy env req <> Dispatch ToDomainMiddleware req'.
Proof.
  intros Hdev Hhost Hin Hend.
  assert (Hc : isCustomDomain env h = Returns false).
  { unfold isCustomDomain. rewrite bool_decide_eq_false_2 by exact Hdev.
    assert (He : existsb (fun p => String.eqb (splitFirst ":" h) p
                                   || endsWith (splitFirst ":" h) p)
                   knownNonCustomPatterns = true).
    { apply existsb_exists. exists suffix. split; [exact Hin|].
      rewrite Hend. apply orb_true_r. }
    now rewrite He. }
  split; [exact Hc|]. intros req'. unfold_proxy.
  destruct (sanitizePath (pathname req)); [|discriminate].
  destruct (validateHost (host req)) eqn:Hv; cbn [negb]; [|discriminate].
  assert (Hor : orElse (host req) "" = h).
  { rewrite Hhost. cbn. destruct (String.eqb_spec h "") as [->|]; [|reflexivity].
    rewrite Hhost in Hv. discriminate. }
  rewrite Hor, Hc. repeat case_match; congruence.
Qed.

Lemma proxy_infrastructure_host_witness :
  isCustomDomain plainEnv "preview-7.vercel.app:443" = Returns false
  /\ forall req',
       proxy plainEnv (plainRequest "/" (Some "preview-7.vercel.app:443") None)
       <> Dispatch ToDomainMiddleware req'.
Proof.
  refine (proxy_infrastructure_host plainEnv
            (plainRequest "/" (Some "preview-7.vercel.app:443") None)
            "preview-7.vercel.app:443" ".vercel.app" _ eq_refl _ eq_refl).
  - discriminate.
  - simpl. tauto.
Defined.

End ProxyExtras4.

Section AppExtras.
Import Js App.

Lemma adminRoute_is_gpRoute (p : string) :
  isAdminRoute p = true -> isGpRoute p = true.
Proof.
  unfold isAdminRoute, isGpRoute. intros H.
  repeat (apply orb_true_iff in H as [H | H]);
    apply startsWith_app in H as [r ->];
    (apply andb_true_iff; split; [reflexivity|]);
    apply existsb_exists.
  - exists "/dashboard". split; [simpl; tauto | apply startsWith_append].
  - exists "/settings". split; [simpl; tauto | apply startsWith_append].
  - exists "/documents". split; [simpl; tauto | apply startsWith_append].
  - exists "/datarooms". split; [simpl; tauto | apply startsWith_append].
Qed.

(** X11: a request off the root path without an email in its token is let
    through only on the public pages, under [/view/] and on
    [/viewer-redirect]; under [/lp/] it is sent to [/lp/login], on a GP
    route to [/admin/login], elsewhere to [/login], each time with the
    path and query as [next]; on [/login] and [/admin/login] themselves
    the middleware gives no response. *)
Theorem app_unauthenticated (now : Z) (req : Request) (decoded : option Token) :
  truthy (userEmailOf decoded) = false ->
  pathname req <> "/" ->
  run decoded (AppMiddleware now req) =
  Returns
    (let path := pathname req in
     let next := Some (path +:+ search req) in
     if isPublicPage path || startsWith path "/view/"
        || String.eqb path "/viewer-redirect" then Some Next
     else if isLpRoute path then Some (Redirect "/lp/login" next)
     else if isGpRoute path then Some (Redirect "/admin/login" next)
     else if isLoginPage path then None
     else Some (Redirect "/login" next)).
Proof.
  intros He Hroot. unfold AppMiddleware.
  rewrite (eqb_false_of_neq _ _ Hroot). cbn [run]. rewrite He.
  cbn [negb andb]. rewrite nextPathOf_append.
  destruct (isPublicPage (pathname req)); [reflexivity|].
  destruct (startsWith (pathname req) "/view/"); [reflexivity|].
  destruct (String.eqb (pathname req) "/viewer-redirect"); [reflexivity|].
  cbn [orb].
  destruct (isLpRoute (pathname req)); [reflexivity|].
  destruct (isGpRoute (pathname req)) eqn:Hgp; [reflexivity|].
  destruct (isLoginPage (pathname req)); cbn [negb]; [reflexivity|].
  destruct (isAdminRoute (pathname req)) eqn:Ha; [|reflexivity].
  apply adminRoute_is_gpRoute in Ha. congruence.
Qed.

Lemma app_unauthenticated_witness :
  run None (AppMiddleware 0 (requestTo "/documents/7" "?v=2" [("v", "2")]))
  = Returns (Some (Redirect "/admin/login" (Some "/documents/7?v=2"))).
Proof.
  refine (app_unauthenticated 0 (requestTo "/documents/7" "?v=2" [("v", "2")])
            None eq_refl _).
  discriminate.
Defined.

End AppExtras.
Section AppExtras2.
Import Js App.

Lemma includes_prefix (s p : string) :
  String.prefix p s = true -> includes s p = true.
Proof. intros H. destruct s; cbn [includes]; now rewrite H. Qed.

Lemma includes_drop_head (s q : string) (c : ascii) :
  includes s (String c q) = true -> includes s q = true.
Proof.
  induction s as [|d r IH]; [discriminate|].
  cbn [includes]. intros H. apply orb_true_iff in H as [H | H].
  - cbn [String.prefix] in H. destruct (ascii_dec c d); [|discriminate].
    rewrite (includes_prefix r q H). apply orb_true_r.
  - rewrite (IH H). apply orb_true_r.
Qed.

Lemma no_login_no_admin_login (p : string) :
  includes p "/login" = false ->
  includes p "/admin/login" = false /\ includes p "/lp/login" = false.
Proof.
  intros H. split; apply not_true_is_false; intros Hc.
  - do 6 apply includes_drop_head in Hc. congruence.
  - do 3 apply includes_drop_head in Hc. congruence.
Qed.

Lemma decodeFrom_nonempty (s : string) (k : nat) (lo hi : N) :
  decodeFrom k lo hi s = Returns "" -> s = "".
Proof.
  destruct s as [|c r]; [reflexivity|]. cbn [decodeFrom]. unfold rmap, Js.bind.
  repeat case_match; discriminate.
Qed.

(** The text handed to the URL constructor holds no [/login]. *)
Lemma finalPathOf_no_login (path : string) (nextPath : option string) :
  includes (finalPathOf path nextPath) "/login" = false.
Proof.
  unfold finalPathOf, withoutLoginLoop.
  assert (Hdefault : includes (if String.eqb path "/admin/login"
                               then "/hub" else "/viewer-redirect") "/login"
                     = false)
    by (destruct (String.eqb path "/admin/login"); reflexivity).
  destruct nextPath as [p|]; [|exact Hdefault].
  destruct (String.eqb p "") eqn:Hp; cbn [negb andb].
  - cbn [orElse]. rewrite Hp. exact Hdefault.
  - destruct (includes p "/login") eqn:Hl; cbn [orb]; [exact Hdefault|].
    destruct (no_login_no_admin_login p Hl) as [-> ->]. cbn [orb orElse].
    rewrite Hp. exact Hl.
Qed.

(** The two ways the login-page branch ends: the [next] parameter does
    not decode, or a text without [/login] goes to the URL constructor. *)
Lemma loginPageRedirect_cases (req : Request) (decoded : option Token) :
  (exists value e,
     paramGet "next" (searchParams req) = Some value
     /\ decodeURIComponent value = Throws e
     /\ run decoded (loginPageRedirect req) = Throws e)
  \/ (exists reference,
        includes reference "/login" = false
        /\ run decoded (loginPageRedirect req)
           = match newURL req reference with
             | Some url => Returns (Some (RedirectUrl url))
             | None => Throws TypeError
             end).
Proof.
  unfold loginPageRedirect.
  destruct (paramGet "next" (searchParams req)) as [value|] eqn:Hnext;
    cbn [truthy].
  - destruct (String.eqb value "") eqn:Hv; cbn [negb orElse].
    + right. exists (finalPathOf (pathname req) None).
      split; [apply finalPathOf_no_login|].
      destruct (newURL req _); reflexivity.
    + rewrite Hv. destruct (decodeURIComponent value) as [p|e] eqn:Hd.
      * right. exists (finalPathOf (pathname req) (Some p)).
        split; [apply finalPathOf_no_login|].
        destruct (newURL req _); reflexivity.
      * left. exists value, e. auto.
  - right. exists (finalPathOf (pathname req) None).
    split; [apply finalPathOf_no_login|].
    destruct (newURL req _); reflexivity.
Qed.

(** Off the login-page branch the middleware returns, and with a
    response that is none built by the URL constructor. *)
Lemma app_run_cases (now : Z) (req : Request) (decoded : option Token) :
  (exists response,
     run decoded (AppMiddleware now req) = Returns response
     /\ forall url, response <> Some (RedirectUrl url))
  \/ (truthy (userEmailOf decoded) = true
      /\ (pathname req = "/login" \/ pathname req = "/admin/login")
      /\ run decoded (AppMiddleware now req)
         = run decoded (loginPageRedirect req)).
Proof.
  unfold AppMiddleware.
  destruct (String.eqb (pathname req) "/");
    [left; eexists; split; [reflexivity|discriminate]|].
  cbn [run].
  destruct (isPublicPage (pathname req)) eqn:Hpub;
    [left; eexists; split; [reflexivity|discriminate]|].
  destruct (startsWith (pathname req) "/view/");
    [left; eexists; split; [reflexivity|discriminate]|].
  destruct (String.eqb (pathname req) "/viewer-redirect");
    [left; eexists; split; [reflexivity|discriminate]|].
  destruct (isLpRoute (pathname req));
    [left; repeat case_match; eexists; (split; [reflexivity|discriminate])|].
  destruct (isGpRoute (pathname req));
    [left; repeat case_match; eexists; (split; [reflexivity|discriminate])|].
  destruct (_ && negb (isLoginPage _));
    [left; eexists; split; [reflexivity|discriminate]|].
  destruct (_ && negb (paramHas _ _));
    [left; eexists; split; [reflexivity|discriminate]|].
  destruct (truthy (userEmailOf decoded)); cbn [andb];
    [|left; eexists; split; [reflexivity|discriminate]].
  destruct (isLoginPage (pathname req)) eqn:Hlogin;
    [|left; destruct (String.eqb _ _); eexists;
      (split; [reflexivity|discriminate])].
  right. split; [reflexivity|]. split; [|reflexivity].
  unfold isLoginPage, isPublicPage in *.
  destruct (String.eqb_spec (pathname req) "/login"); [auto|].
  destruct (String.eqb_spec (pathname req) "/admin/login"); [auto|].
  cbn [orb] in Hlogin. rewrite Hlogin in Hpub.
  rewrite orb_true_r in Hpub. discriminate.
Qed.

(** What is left of the middleware for an authenticated request to a path
    that none of the earlier rules handles. *)
Lemma app_other_authenticated (now : Z) (req : Request) (t : Token) :
  truthy (email t) = true ->
  isOtherPath (pathname req) = true ->
  run (Some t) (AppMiddleware now req) =
  run (Some t)
    (if match createdAt t with
        | Some created => now - 10000 <? created
        | None => false
        end
        && negb (String.eqb (pathname req) "/welcome")
        && negb (paramHas "invitation" (searchParams req))
     then Ret (Some (Redirect "/welcome" None))
     else if isLoginPage (pathname req) then loginPageRedirect req
     else if String.eqb (pathname req) "/viewer-portal" then Ret (Some Next)
     else Ret None).
Proof.
  intros He Hother. unfold isOtherPath in Hother.
  repeat (apply andb_true_iff in Hother as [Hother ?]).
  repeat match goal with
         | H : negb _ = true |- _ => apply negb_true_iff in H
         end.
  unfold AppMiddleware. rewrite Hother. cbn [run].
  repeat match goal with
         | H : _ = false |- _ => rewrite H
         end.
  cbn [userEmailOf userCreatedAtOf]. rewrite He. cbn [negb andb].
  reflexivity.
Qed.

(** X12: a redirect to a URL built from the request is only ever the
    answer to an authenticated request to [/login] or [/admin/login], and
    the text that was handed to the URL constructor for it holds no
    [/login].  The loop check is made on that text: it says nothing of
    the URL that the constructor builds from it. *)
Theorem app_login_no_loop (now : Z) (req : Request) (decoded : option Token)
    (url : string) :
  run decoded (AppMiddleware now req) = Returns (Some (RedirectUrl url)) ->
  truthy (userEmailOf decoded) = true
  /\ (pathname req = "/login" \/ pathname req = "/admin/login")
  /\ exists reference,
       newURL req reference = Some url
       /\ includes reference "/login" = false.
Proof.
  intros Hrun.
  destruct (app_run_cases now req decoded)
    as [(response & Hr & Hno) | (He & Hpath & Hlogin)].
  - rewrite Hr in Hrun. injection Hrun as ->. now destruct (Hno url).
  - split; [exact He|]. split; [exact Hpath|].
    rewrite Hlogin in Hrun.
    destruct (loginPageRedirect_cases req decoded)
      as [(value & e & _ & _ & Ht) | (reference & Hclean & Ht)];
      rewrite Ht in Hrun; [discriminate|].
    exists reference. split; [|exact Hclean].
    destruct (newURL req reference); [|discriminate].
    now injection Hrun as ->.
Qed.

Lemma app_login_no_loop_witness :
  truthy (userEmailOf (Some lpToken)) = true
  /\ (pathname (requestTo "/login" "?next=%2Fadmin%2Flogin" [("next", "/admin/login")])
        = "/login"
      \/ pathname (requestTo "/login" "?next=%2Fadmin%2Flogin" [("next", "/admin/login")])
         = "/admin/login")
  /\ exists reference,
       exampleNewURL "https://localhost" reference
       = Some "https://localhost/viewer-redirect"
       /\ includes reference "/login" = false.
Proof.
  exact (app_login_no_loop 0
           (requestTo "/login" "?next=%2Fadmin%2Flogin" [("next", "/admin/login")])
           (Some lpToken) "https://localhost/viewer-redirect" eq_refl).
Defined.

(** X13: for an authenticated request to [/login] or [/admin/login], with
    no creation date in the token, a non-empty [next] parameter that
    decodes to a text without [/login] is handed to the URL constructor
    as it is, absolute URLs included: the answer is a redirect to the URL
    the constructor builds from it, and the constructor's error when it
    refuses the text. *)
Theorem app_login_next_verbatim (now : Z) (req : Request) (t : Token)
    (value target : string) :
  truthy (email t) = true ->
  pathname req = "/login" \/ pathname req = "/admin/login" ->
  createdAt t = None ->
  paramGet "next" (searchParams req) = Some value ->
  value <> "" ->
  decodeURIComponent value = Returns target ->
  includes target "/login" = false ->
  run (Some t) (AppMiddleware now req)
  = match newURL req target with
    | Some url => Returns (Some (RedirectUrl url))
    | None => Throws "TypeError"
    end.
Proof.
  intros He Hpath Hc Hnext Hvalue Hdecode Hclean.
  assert (Hother : isOtherPath (pathname req) = true)
    by (destruct Hpath as [-> | ->]; reflexivity).
  assert (Hlogin : isLoginPage (pathname req) = true)
    by (destruct Hpath as [-> | ->]; reflexivity).
  rewrite (app_other_authenticated now req t He Hother), Hc, Hlogin.
  cbn [andb]. unfold loginPageRedirect. rewrite Hnext.
  cbn [truthy orElse]. rewrite (eqb_false_of_neq _ _ Hvalue). cbn [negb].
  rewrite Hdecode.
  assert (Hne : String.eqb target "" = false).
  { apply eqb_false_of_neq. intros ->.
    apply decodeFrom_nonempty in Hdecode. contradiction. }
  assert (Hfinal : finalPathOf (pathname req) (Some target) = target).
  { unfold finalPathOf, withoutLoginLoop.
    destruct (no_login_no_admin_login target Hclean) as [-> ->].
    rewrite Hclean, Hne. cbn [negb andb orb orElse]. now rewrite Hne. }
  rewrite Hfinal. destruct (newURL req target); reflexivity.
Qed.

Lemma app_login_next_verbatim_witness :
  run (Some lpToken)
      (AppMiddleware 0
         (requestTo "/login" "?next=https%3A%2F%2Felsewhere.example%2Fx"
            [("next", "https://elsewhere.example/x")]))
  = match exampleNewURL "https://localhost" "https://elsewhere.example/x" with
    | Some url => Returns (Some (RedirectUrl url))
    | None => Throws "TypeError"
    end.
Proof.
  refine (app_login_next_verbatim 0
            (requestTo "/login" "?next=https%3A%2F%2Felsewhere.example%2Fx"
               [("next", "https://elsewhere.example/x")])
            lpToken "https://elsewhere.example/x" "https://elsewhere.example/x"
            eq_refl (or_introl eq_refl) eq_refl eq_refl _ eq_refl eq_refl).
  discriminate.
Defined.

(** X14: the middleware throws only for an authenticated request to
    [/login] or [/admin/login]: when the [next] parameter does not
    percent-decode, with that error, or when the URL constructor refuses
    the text it is handed, a text without [/login], with a [TypeError]. *)
Theorem app_throws_only_on_next (now : Z) (req : Request)
    (decoded : option Token) (e : string) :
  run decoded (AppMiddleware now req) = Throws e ->
  truthy (userEmailOf decoded) = true
  /\ (pathname req = "/login" \/ pathname req = "/admin/login")
  /\ ((exists value,
         paramGet "next" (searchParams req) = Some value
         /\ decodeURIComponent value = Throws e)
      \/ (e = "TypeError"
          /\ exists reference,
               newURL req reference = None
               /\ includes reference "/login" = false)).
Proof.
  intros Hrun.
  destruct (app_run_cases now req decoded)
    as [(response & Hr & _) | (He & Hpath & Hlogin)].
  - rewrite Hr in Hrun. discriminate.
  - split; [exact He|]. split; [exact Hpath|].
    rewrite Hlogin in Hrun.
    destruct (loginPageRedirect_cases req decoded)
      as [(value & e' & Hnext & Hd & Ht) | (reference & Hclean & Ht)];
      rewrite Ht in Hrun.
    + injection Hrun as ->. left. eauto.
    + right. destruct (newURL req reference) eqn:Hu; [discriminate|].
      injection Hrun as <-. split; [reflexivity|]. eauto.
Qed.

Lemma app_throws_only_on_next_witness :
  truthy (userEmailOf (Some lpToken)) = true
  /\ (pathname (requestTo "/login" "?next=%2F%2F" [("next", "//")]) = "/login"
      \/ pathname (requestTo "/login" "?next=%2F%2F" [("next", "//")]) = "/admin/login")
  /\ ((exists value,
         paramGet "next" (searchParams (requestTo "/login" "?next=%2F%2F" [("next", "//")]))
           = Some value
         /\ decodeURIComponent value = Throws "TypeError")
      \/ ("TypeError" = "TypeError"
          /\ exists reference,
               exampleNewURL "https://localhost" reference = None
               /\ includes reference "/login" = false)).
Proof.
  exact (app_throws_only_on_next 0 (requestTo "/login" "?next=%2F%2F" [("next", "//")])
           (Some lpToken) "TypeError" eq_refl).
Defined.

End AppExtras2.

Section DomainExtras.
Import Js Domain.

(** X15: on the signup domain, the login portal and the infrastructure
    domains the domain middleware never rewrites: it passes the request
    on, or at the root path redirects to [/signup] or [/admin/login]. *)
Theorem domain_platform_never_rewritten (env : Env) (req : Request) :
  isPlatformHost env (host req) = true ->
  DomainMiddleware env req = Next
  \/ (pathname req = "/"
      /\ (DomainMiddleware env req = Redirect "/signup"
          \/ DomainMiddleware env req = Redirect "/admin/login")).
Proof.
  unfold isPlatformHost, DomainMiddleware. intros H.
  destruct (hostIs (isAppSignupDomain env) (host req)).
  - destruct (String.eqb_spec (pathname req) "/"); auto.
  - destruct (hostIs (isLoginPortalDomain env) (host req)).
    + destruct (String.eqb_spec (pathname req) "/"); auto.
    + cbn [orb] in H. rewrite H. auto.
Qed.

(** X16: on any other host, off the root path, the request is always
    rewritten: to [/404] with status 404 when the path is blocked or
    contains a dot, otherwise to the pathname that the setter makes of
    [/view/domains/] followed by the host and the path, with an
    [X-Robots-Tag] header that is [noindex] unless the platform headers
    set their own.  The setter parses the text it is given, so the
    pathname need not be that text, nor start with [/view/domains/]. *)
Theorem domain_tenant_rewrite (env : Env) (req : Request) :
  isPlatformHost env (host req) = false ->
  pathname req <> "/" ->
  (existsb (String.eqb (pathname req)) (BLOCKED_PATHNAMES env)
   || includes (pathname req) "." = true ->
   DomainMiddleware env req = Rewrite "/404" (Some 404) ∅)
  /\ (existsb (String.eqb (pathname req)) (BLOCKED_PATHNAMES env)
      || includes (pathname req) "." = false ->
      exists headers,
        DomainMiddleware env req
        = Rewrite (setPathname env
                     ("/view/domains/" +:+ hostText (host req) +:+ pathname req))
                  None headers
        /\ is_Some (headers !! "X-Robots-Tag")
        /\ (PLATFORM_HEADERS env !! "X-Robots-Tag" = None ->
            headers !! "X-Robots-Tag" = Some "noindex")).
Proof.
  unfold isPlatformHost. intros Hplat Hroot.
  apply orb_false_iff in Hplat as [Hplat Hinfra].
  apply orb_false_iff in Hplat as [Hsignup Hlogin].
  unfold DomainMiddleware.
  rewrite Hsignup, Hlogin, Hinfra, (eqb_false_of_neq _ _ Hroot).
  split; intros Hblocked; rewrite Hblocked; [reflexivity|].
  eexists. split; [reflexivity|].
  unfold rewriteHeaders. split.
  - destruct (PLATFORM_HEADERS env !! "X-Robots-Tag") as [v|] eqn:Hv.
    + exists v. now apply lookup_union_Some_l.
    + exists "noindex". rewrite lookup_union_r by exact Hv.
      apply lookup_singleton_eq.
  - intros Hv. rewrite lookup_union_r by exact Hv. apply lookup_singleton_eq.
Qed.

(** X17: at the root path the domain middleware never rewrites; it
    redirects, except on an infrastructure domain, which it passes on. *)
Theorem domain_root (env : Env) (req : Request) :
  pathname req = "/" ->
  (exists target, DomainMiddleware env req = Redirect target)
  \/ (DomainMiddleware env req = Next
      /\ hostIs (isInfrastructureDomain env) (host req) = true).
Proof.
  intros Hroot. unfold DomainMiddleware. rewrite Hroot.
  change (String.eqb "/" "/") with true. cbv iota.
  destruct (hostIs (isAppSignupDomain env) (host req)); [eauto|].
  destruct (hostIs (isLoginPortalDomain env) (host req)); [eauto|].
  destruct (hostIs (isInfrastructureDomain env) (host req)); [auto|].
  left. repeat case_match; eauto.
Qed.

Lemma domain_platform_never_rewritten_witness :
  DomainMiddleware platformEnv (plainRequest "/" (Some "app.fundroom.ai") None) = Next
  \/ (pathname (plainRequest "/" (Some "app.fundroom.ai") None) = "/"
      /\ (DomainMiddleware platformEnv (plainRequest "/" (Some "app.fundroom.ai") None)
            = Redirect "/signup"
          \/ DomainMiddleware platformEnv
               (plainRequest "/" (Some "app.fundroom.ai") None)
             = Redirect "/admin/login")).
Proof.
  exact (domain_platform_never_rewritten platformEnv
           (plainRequest "/" (Some "app.fundroom.ai") None) eq_refl).
Defined.

Lemma domain_tenant_rewrite_witness :
  DomainMiddleware platformEnv
    (plainRequest "/favicon.ico" (Some "dataroom.acme.example") None)
  = Rewrite "/404" (Some 404) ∅
  /\ exists headers,
       DomainMiddleware platformEnv
         (plainRequest "/deck" (Some "dataroom.acme.example") None)
       = Rewrite "/view/domains/dataroom.acme.example/deck" None headers
       /\ headers !! "X-Robots-Tag" = Some "noindex".
Proof.
  split.
  - refine (proj1 (domain_tenant_rewrite platformEnv
                     (plainRequest "/favicon.ico" (Some "dataroom.acme.example") None)
                     eq_refl _) eq_refl).
    discriminate.
  - destruct (proj2 (domain_tenant_rewrite platformEnv
                       (plainRequest "/deck" (Some "dataroom.acme.example") None)
                       eq_refl ltac:(discriminate)) eq_refl)
      as (headers & Hd & _ & Hrobots).
    exists headers. split; [exact Hd|exact (Hrobots eq_refl)].
Defined.

Lemma domain_root_witness :
  (exists target,
     DomainMiddleware platformEnv
       (plainRequest "/" (Some "dataroom.acme.example") None) = Redirect target)
  \/ (DomainMiddleware platformEnv
        (plainRequest "/" (Some "dataroom.acme.example") None) = Next
      /\ hostIs (isInfrastructureDomain platformEnv) (Some "dataroom.acme.example")
         = true).
Proof.
  exact (domain_root platformEnv
           (plainRequest "/" (Some "dataroom.acme.example") None) eq_refl).
Defined.

End DomainExtras.

Section NormalizeFacts.
Import Js.

Lemma lowerChar_idem (c : ascii) : lowerChar (lowerChar c) = lowerChar c.
Proof. destruct c as [[] [] [] [] [] [] [] []]; reflexivity. Qed.

Lemma isSpace_lowerChar (c : ascii) : isSpace (lowerChar c) = isSpace c.
Proof. destruct c as [[] [] [] [] [] [] [] []]; reflexivity. Qed.

Lemma asciiToLowerCase_idem (s : string) :
  asciiToLowerCase (asciiToLowerCase s) = asciiToLowerCase s.
Proof.
  induction s as [|c r IH]; [reflexivity|].
  cbn [asciiToLowerCase]. now rewrite lowerChar_idem, IH.
Qed.

Lemma asciiToLowerCase_eqb_empty (s : string) :
  String.eqb (asciiToLowerCase s) "" = String.eqb s "".
Proof. now destruct s. Qed.

Lemma trimStart_asciiToLowerCase (s : string) :
  trimStart (asciiToLowerCase s) = asciiToLowerCase (trimStart s).
Proof.
  induction s as [|c r IH]; [reflexivity|].
  cbn [asciiToLowerCase trimStart]. rewrite isSpace_lowerChar.
  destruct (isSpace c); [exact IH|reflexivity].
Qed.

Lemma trimEnd_asciiToLowerCase (s : string) :
  trimEnd (asciiToLowerCase s) = asciiToLowerCase (trimEnd s).
Proof.
  induction s as [|c r IH]; [reflexivity|].
  cbn [asciiToLowerCase trimEnd].
  rewrite isSpace_lowerChar, IH, asciiToLowerCase_eqb_empty.
  destruct (isSpace c && String.eqb (trimEnd r) ""); reflexivity.
Qed.

Lemma trimStart_noLeadingSpace (s : string) : noLeadingSpace (trimStart s) = true.
Proof.
  induction s as [|c r IH]; [reflexivity|].
  cbn [trimStart]. destruct (isSpace c) eqn:Hc; [exact IH|].
  cbn. now rewrite Hc.
Qed.

Lemma trimStart_id (s : string) : noLeadingSpace s = true -> trimStart s = s.
Proof.
  destruct s as [|c r]; [reflexivity|]. cbn. intros H.
  apply negb_true_iff in H. now rewrite H.
Qed.

Lemma trimEnd_noLeadingSpace (s : string) :
  noLeadingSpace s = true -> noLeadingSpace (trimEnd s) = true.
Proof.
  destruct s as [|c r]; [reflexivity|]. cbn [noLeadingSpace trimEnd]. intros H.
  apply negb_true_iff in H. rewrite H. cbn. now rewrite H.
Qed.

Lemma trimEnd_idem (s : string) : trimEnd (trimEnd s) = trimEnd s.
Proof.
  induction s as [|c r IH]; [reflexivity|].
  cbn [trimEnd]. destruct (isSpace c && String.eqb (trimEnd r) "") eqn:H.
  - reflexivity.
  - cbn [trimEnd]. rewrite IH, H. reflexivity.
Qed.

Lemma asciiTrim_idem (s : string) : asciiTrim (asciiTrim s) = asciiTrim s.
Proof.
  unfold asciiTrim.
  rewrite (trimStart_id (trimEnd (trimStart s))).
  - apply trimEnd_idem.
  - apply trimEnd_noLeadingSpace, trimStart_noLeadingSpace.
Qed.

Lemma asciiTrim_asciiToLowerCase (s : string) :
  asciiTrim (asciiToLowerCase s) = asciiToLowerCase (asciiTrim s).
Proof.
  unfold asciiTrim.
  now rewrite trimStart_asciiToLowerCase, trimEnd_asciiToLowerCase.
Qed.

(** On ASCII texts, normalizing an address that is normalized already
    changes nothing. *)
Lemma ascii_normalize_idem (email : string) :
  AdminMagicLink.normalize asciiTrim asciiToLowerCase
    (AdminMagicLink.normalize asciiTrim asciiToLowerCase email)
  = AdminMagicLink.normalize asciiTrim asciiToLowerCase email.
Proof.
  unfold AdminMagicLink.normalize.
  now rewrite asciiTrim_asciiToLowerCase, asciiTrim_idem, asciiToLowerCase_idem.
Qed.

End NormalizeFacts.

Section AdminMagicLinkExtras.
Import Js AdminMagicLink.

Variables trim toLowerCase : string -> string.
Variable isUserAdminAsync : string -> bool.

Local Abbreviation normalize := (AdminMagicLink.normalize trim toLowerCase).
Local Abbreviation identifierOf := (AdminMagicLink.identifierOf trim toLowerCase).
Local Abbreviation verify :=
  (verifyAdminMagicLink trim toLowerCase isUserAdminAsync).
Local Abbreviation create :=
  (createAdminMagicLink trim toLowerCase isUserAdminAsync).








End AdminMagicLinkExtras.





Section EmailLoginExtras.
Import Js EmailLogin.

(** X22: [sendVerificationRequestEmail] throws before it touches the
    table when one of the URLs does not parse or the purge is rejected.
    Once the purge has gone through, the table holds the earlier rows of
    the other identifiers, in their order, and nothing else of the
    identifier; when the creation is rejected the call throws and the
    table stays so, with no row for the identifier; when the creation
    goes through the new row comes last, also when the email could not
    be sent and the call throws.  The identifier is the address
    lowercased by the built-in of the language, whatever it maps. *)
Theorem email_login_table_after (env : Env) (table : list Row)
    (run : Run) (email url : string) :
  let out := sendVerificationRequestEmail env run email url in
  let after := performAll table (fst out) in
  let ident := toLowerCase env email in
  let others := filter (fun r => identifier r <> ident) table in
  let issued := {| identifier := ident; token := randomHex run;
                   callbackUrl := url; authTokenHash := "";
                   expires := now run + 1800000 |} in
  (urlsParse env url = false -> out = ([], Throws "TypeError"))
  /\ (forall e, urlsParse env url = true -> deleteManyError run = Some e ->
        out = ([], Throws e))
  /\ (urlsParse env url = true -> deleteManyError run = None ->
      match createError run with
      | Some e => after = others /\ snd out = Throws e
      | None =>
          after = others ++ [issued]
          /\ last after = Some issued
          /\ snd out = match sendError run with
                       | Some e => Throws e
                       | None => Returns tt
                       end
      end).
Proof.
  intros out after ident others issued. subst out after ident others issued.
  unfold sendVerificationRequestEmail. split; [|split].
  - intros ->. reflexivity.
  - intros e -> ->. reflexivity.
  - intros -> ->. cbn [negb].
    destruct (createError run) as [e|]; [split; reflexivity|].
    destruct (sendError run); cbn [fst snd performAll fold_left perform];
      unfold create, deleteMany; (split; [reflexivity|]);
      (split; [apply last_snoc|reflexivity]).
Qed.

Lemma email_login_table_after_witness :
  performAll staleRows
    (fst (sendVerificationRequestEmail mailEnv (createRejectedRun 0 "cc")
            "LP@Fund.Example" "https://app.example/cb")) = []
  /\ snd (sendVerificationRequestEmail mailEnv (mailDownRun 0 "cc")
            "LP@Fund.Example" "https://app.example/cb") = Throws "Error"
  /\ last (performAll staleRows
             (fst (sendVerificationRequestEmail mailEnv (mailDownRun 0 "cc")
                     "LP@Fund.Example" "https://app.example/cb")))
     = Some {| identifier := "lp@fund.example"; token := "cc";
               callbackUrl := "https://app.example/cb"; authTokenHash := "";
               expires := 1800000 |}.
Proof.
  pose proof (proj2 (proj2 (email_login_table_after mailEnv staleRows
                              (createRejectedRun 0 "cc")
                              "LP@Fund.Example" "https://app.example/cb"))
                eq_refl eq_refl) as (Hrejected & _).
  pose proof (proj2 (proj2 (email_login_table_after mailEnv staleRows
                              (mailDownRun 0 "cc")
                              "LP@Fund.Example" "https://app.example/cb"))
                eq_refl eq_refl) as (_ & Hlast & Hsnd).
  split; [exact Hrejected|]. split; [exact Hsnd|exact Hlast].
Defined.

End EmailLoginExtras.

Section AuthOptionsExtras.
Import Js AuthOptions.

Lemma redirect_cases (parseUrl : string -> option (string * string))
    (url baseUrl : string) :
  redirect parseUrl url baseUrl = baseUrl +:+ "/viewer-redirect"
  \/ (redirect parseUrl url baseUrl = baseUrl +:+ url
      /\ startsWith url "/" = true
      /\ splitFirst "?" url <> "/"
      /\ startsWith (splitFirst "?" url) "/login" = false)
  \/ (redirect parseUrl url baseUrl = url
      /\ exists path, parseUrl url = Some (baseUrl, path)
           /\ path <> "/" /\ startsWith path "/login" = false).
Proof.
  unfold redirect. destruct (startsWith url "/").
  - destruct (String.eqb_spec (splitFirst "?" url) "/") as [|Hroot]; [auto|].
    destruct (startsWith (splitFirst "?" url) "/login") eqn:Hlogin; [auto|].
    right. left. auto.
  - destruct (parseUrl url) as [[origin path]|]; [|auto].
    destruct (String.eqb_spec origin baseUrl) as [->|]; cbn [negb]; [|auto].
    destruct (String.eqb_spec path "/") as [|Hroot]; [auto|].
    destruct (startsWith path "/login") eqn:Hlogin; [auto|].
    right. right. split; [reflexivity|]. eauto.
Qed.

(** X23: the [redirect] callback returns a URL that starts with the base
    URL, or the given URL itself when its origin is the base URL; a
    relative URL to the root or to a path starting with [/login], and an
    absolute URL of another origin or to such a path, are replaced by
    [/viewer-redirect] under the base URL. *)
Theorem redirect_same_origin (parseUrl : string -> option (string * string))
    (url baseUrl : string) :
  (startsWith (redirect parseUrl url baseUrl) baseUrl = true
   \/ (redirect parseUrl url baseUrl = url
       /\ exists path, parseUrl url = Some (baseUrl, path)))
  /\ (startsWith url "/" = true ->
      splitFirst "?" url = "/" \/ startsWith (splitFirst "?" url) "/login" = true ->
      redirect parseUrl url baseUrl = baseUrl +:+ "/viewer-redirect")
  /\ (forall origin path, parseUrl url = Some (origin, path) ->
      startsWith url "/" = false ->
      origin <> baseUrl \/ path = "/" \/ startsWith path "/login" = true ->
      redirect parseUrl url baseUrl = baseUrl +:+ "/viewer-redirect").
Proof.
  split; [|split].
  - destruct (redirect_cases parseUrl url baseUrl)
      as [-> | [(-> & _) | (Hr & path & Hp & _)]].
    + left. apply startsWith_append.
    + left. apply startsWith_append.
    + right. eauto.
  - intros Hrel Hpath. unfold redirect. rewrite Hrel.
    destruct Hpath as [-> | ->]; [reflexivity|]. now rewrite orb_true_r.
  - intros origin path Hp Habs Hbad. unfold redirect. rewrite Habs, Hp.
    destruct (String.eqb_spec origin baseUrl) as [->|]; cbn [negb]; [|reflexivity].
    destruct Hbad as [H | [-> | ->]]; [contradiction|reflexivity|].
    now rewrite orb_true_r.
Qed.

Lemma redirect_same_origin_witness :
  redirect exampleParseUrl "/login?error=x" "https://app.example"
    = "https://app.example/viewer-redirect"
  /\ redirect exampleParseUrl "https://elsewhere.example/x" "https://app.example"
     = "https://app.example/viewer-redirect".
Proof.
  pose proof (redirect_same_origin exampleParseUrl "/login?error=x"
                "https://app.example") as (_ & Hrel & _).
  pose proof (redirect_same_origin exampleParseUrl "https://elsewhere.example/x"
                "https://app.example") as (_ & _ & Habs).
  split.
  - exact (Hrel eq_refl (or_intror eq_refl)).
  - refine (Habs "https://elsewhere.example" "/x" eq_refl eq_refl _).
    left. discriminate.
Defined.

(** X24: the role the [session] callback writes is GP or LP, whatever the
    token holds: GP exactly for a token role GP, LP otherwise. *)
Theorem session_role_two_values (token : JWT) :
  (sessionRole (session token) = "GP" \/ sessionRole (session token) = "LP")
  /\ (role token = Some "GP" -> sessionRole (session token) = "GP")
  /\ (role token <> Some "GP" -> sessionRole (session token) = "LP").
Proof.
  unfold session. cbn [sessionRole]. destruct (role token) as [r|].
  - destruct (String.eqb_spec r "GP") as [->|Hgp]; cbn [orb].
    + repeat split; auto. congruence.
    + destruct (String.eqb_spec r "LP") as [->|Hlp]; repeat split; auto;
        congruence.
  - repeat split; auto. discriminate.
Qed.

Lemma session_role_two_values_witness :
  sessionRole (session (jwt emptyJWT (Some signingUser)
                          (Some {| dbRole := Some "MANAGER"; dbCreatedAt := None |})
                          false)) = "LP".
Proof.
  refine (proj2 (proj2 (session_role_two_values _)) _). discriminate.
Defined.

(** X25: for a user who signs in with an email, the token written by the
    [jwt] callback decides the GP routes of the app middleware: with an
    admin team membership the request is let through; without one it is
    redirected to [/viewer-portal] when the stored role is LP or missing,
    and let through for another stored role. *)
Theorem jwt_decides_gp_gate (token : JWT) (u : User) (dbUser : option DbUser)
    (adminTeam : bool) (now : Z) (req : Request) :
  truthy (userEmail u) = true ->
  App.isGpRoute (pathname req) = true ->
  let claims := toAppToken (jwt token (Some u) dbUser adminTeam) in
  let stored := orElse (match dbUser with
                        | Some d => dbRole d
                        | None => None
                        end) "LP" in
  (adminTeam = true ->
   App.run (Some claims) (App.AppMiddleware now req) = Returns (Some App.Next))
  /\ (adminTeam = false -> stored = "LP" ->
      App.run (Some claims) (App.AppMiddleware now req)
      = Returns (Some (App.Redirect "/viewer-portal" None)))
  /\ (adminTeam = false -> stored <> "LP" ->
      App.run (Some claims) (App.AppMiddleware now req) = Returns (Some App.Next)).
Proof.
  intros He Hgp claims stored.
  destruct (gp_earlier_tests _ Hgp) as (H1 & H2 & H3 & H4 & H5).
  assert (Hrun : App.run (Some claims) (App.AppMiddleware now req)
                 = Returns (Some (if String.eqb (App.userRoleOf (Some claims)) "LP"
                                  then App.Redirect "/viewer-portal" None
                                  else App.Next))).
  { unfold App.AppMiddleware. rewrite H1. cbn [App.run].
    rewrite H2, H3, H4, H5, Hgp.
    assert (Hemail : truthy (App.userEmailOf (Some claims)) = true) by exact He.
    rewrite Hemail. cbn [negb].
    destruct (String.eqb (App.userRoleOf (Some claims)) "LP"); reflexivity. }
  rewrite Hrun.
  assert (Hstored : String.eqb stored "" = false).
  { apply eqb_false_of_neq. subst stored. unfold orElse.
    repeat case_match; try discriminate; now apply String.eqb_neq. }
  assert (Hrole : App.userRoleOf (Some claims) = if adminTeam then "GP" else stored).
  { subst claims. unfold App.userRoleOf, toAppToken, jwt. cbn [App.role role].
    destruct adminTeam; [reflexivity|]. fold stored.
    unfold orElse at 1. now rewrite Hstored. }
  rewrite Hrole. split; [|split].
  - intros ->. reflexivity.
  - intros -> ->. reflexivity.
  - intros -> Hne. now rewrite (eqb_false_of_neq _ _ Hne).
Qed.

Lemma jwt_decides_gp_gate_witness :
  App.run (Some (toAppToken (jwt emptyJWT (Some signingUser) None true)))
          (App.AppMiddleware 0 (requestTo "/datarooms/1" "" []))
  = Returns (Some App.Next)
  /\ App.run (Some (toAppToken (jwt emptyJWT (Some signingUser) None false)))
             (App.AppMiddleware 0 (requestTo "/datarooms/1" "" []))
     = Returns (Some (App.Redirect "/viewer-portal" None)).
Proof.
  split.
  - exact (proj1 (jwt_decides_gp_gate emptyJWT signingUser None true 0
                    (requestTo "/datarooms/1" "" []) eq_refl eq_refl) eq_refl).
  - exact (proj1 (proj2 (jwt_decides_gp_gate emptyJWT signingUser None false 0
                           (requestTo "/datarooms/1" "" []) eq_refl eq_refl))
             eq_refl eq_refl).
Defined.

End AuthOptionsExtras.

Section RollbarExtras.
Import Js Rollbar.

(** X26: every item that [onSendCallback] vetoes is already ignored by
    [checkIgnore]. *)
Theorem rollbar_veto_is_ignored (toLowerCase : string -> string)
    (args : list LogArgument) :
  onSendCallback args = Some false -> checkIgnore toLowerCase args = true.
Proof.
  unfold onSendCallback, checkIgnore.
  destruct args as [|[text | name message |] rest]; try discriminate.
  destruct (String.eqb name "RangeError"); [reflexivity|discriminate].
Qed.

Lemma rollbar_veto_is_ignored_witness :
  checkIgnore asciiToLowerCase
    [LogError "RangeError" (Some "Maximum call stack size exceeded")] = true.
Proof.
  exact (rollbar_veto_is_ignored asciiToLowerCase
           [LogError "RangeError" (Some "Maximum call stack size exceeded")] eq_refl).
Defined.

End RollbarExtras.


Section MoreExtras.
Import Js Proxy.

(** ** Paths without a percent sign always sanitize *)

Lemma hasChar_flushDots (c : ascii) (dots : nat) (s : string) :
  Ascii.eqb "." c = false ->
  hasChar c (flushDots dots s) = hasChar c s.
Proof.
  intros Hc. destruct dots as [|[|dots]]; try reflexivity.
  cbn [flushDots hasChar]. now rewrite Hc.
Qed.

Lemma hasChar_removeDotRuns (c : ascii) (s : string) : forall dots,
  Ascii.eqb "." c = false ->
  hasChar c s = false -> hasChar c (removeDotRuns dots s) = false.
Proof.
  induction s as [|d r IH]; intros dots Hc Hs; cbn [removeDotRuns].
  - now rewrite hasChar_flushDots.
  - cbn [hasChar] in Hs. apply orb_false_iff in Hs as [Hd Hr].
    destruct (Ascii.eqb d "."); [now apply IH|].
    rewrite hasChar_flushDots by exact Hc. cbn [hasChar].
    now rewrite Hd, IH.
Qed.

Lemma hasChar_collapseSlashes (c : ascii) (s : string) : forall after,
  hasChar c s = false -> hasChar c (collapseSlashes after s) = false.
Proof.
  induction s as [|d r IH]; intros after Hs; [reflexivity|].
  cbn [hasChar] in Hs. apply orb_false_iff in Hs as [Hd Hr].
  cbn [collapseSlashes].
  destruct (Ascii.eqb d "/"); [destruct after|]; cbn [hasChar];
    rewrite ?Hd; now apply IH.
Qed.

(** X5: on a path without a percent sign [sanitizePath] never throws; it
    returns the path with runs of dots removed, slashes collapsed, and
    angle brackets and quotes removed. *)
Theorem sanitizePath_without_percent (path : string) :
  hasChar "%" path = false ->
  sanitizePath path =
  Returns (removeChars isMarkupChar (collapseSlashes false (removeDotRuns 0 path))).
Proof.
  intros Hp. unfold sanitizePath. rewrite decodeURIComponent_id; [reflexivity|].
  apply hasChar_collapseSlashes, hasChar_removeDotRuns; [reflexivity|exact Hp].
Qed.

Lemma sanitizePath_without_percent_witness :
  sanitizePath "/a/../b//c" = Returns "/a/b/c".
Proof.
  exact (sanitizePath_without_percent "/a/../b//c" eq_refl).
Defined.

(** ** What the domain middleware gets from the proxy *)

(** X10: a request the proxy hands to the domain middleware carries a Host
    header whose part before the first colon is in the hostname grammar
    (what follows the colon is not checked), and the same path; so
    whenever the domain middleware rewrites it, the text it assigns to
    the pathname is [/404] or [/view/domains/] followed by that very Host
    value and path, never the text null.  The pathname of the rewrite is
    what the setter makes of that text. *)
Theorem proxy_to_domain_has_host (env : Env) (denv : Domain.Env)
    (req req' : Request) :
  proxy env req = Dispatch ToDomainMiddleware req' ->
  exists h, host req' = Some h
    /\ Domain.hostText (host req') = h
    /\ HostGrammar (splitFirst ":" h)
    /\ pathname req' = pathname req
    /\ forall p st hd, Domain.DomainMiddleware denv req' = Domain.Rewrite p st hd ->
         p = "/404"
         \/ p = Domain.setPathname denv ("/view/domains/" +:+ h +:+ pathname req).
Proof.
  intros Hd.
  assert (Hv : validateHost (host req) = true).
  { destruct (validateHost (host req)) eqn:Hv; [reflexivity|].
    exfalso. exact (proxy_invalid_host_no_dispatch env req Hv _ _ Hd). }
  pose proof (proxy_dispatched_request env req req' _ Hd) as Hreq.
  assert (Hsame : host req' = host req /\ pathname req' = pathname req).
  { subst req'. destruct (validateClientIP env req); split; reflexivity. }
  destruct Hsame as [Hhost Hpath].
  apply validateHost_true_iff in Hv as (h & Hh & Hg & _).
  exists h. rewrite Hhost, Hh. repeat split; try assumption.
  intros p st hd. unfold Domain.DomainMiddleware. rewrite Hhost, Hh, Hpath.
  repeat case_match; intros [= <- _ _]; auto.
Qed.

Lemma proxy_to_domain_has_host_witness :
  exists h, host tenantRequest = Some h
    /\ Domain.hostText (host tenantRequest) = h
    /\ HostGrammar (splitFirst ":" h)
    /\ pathname tenantRequest = pathname tenantRequest
    /\ forall p st hd,
         Domain.DomainMiddleware platformEnv tenantRequest = Domain.Rewrite p st hd ->
         p = "/404"
         \/ p = Domain.setPathname platformEnv
                  ("/view/domains/" +:+ h +:+ pathname tenantRequest).
Proof.
  exact (proxy_to_domain_has_host plainEnv platformEnv tenantRequest tenantRequest
           eq_refl).
Defined.

End MoreExtras.

Section MagicLinkFrame.
Import AdminMagicLink.

(** X21: [verifyAdminMagicLink] never touches the row of another token. *)
Theorem magic_link_verify_frame (trim toLowerCase : string -> string)
    (isUserAdminAsync : string -> bool)
    (db : gmap string Row) (now : Z) (token email other : string) :
  other <> token ->
  fst (verifyAdminMagicLink trim toLowerCase isUserAdminAsync
         db now token email) !! other
  = db !! other.
Proof.
  intros Hne.
  destruct (verify_table trim toLowerCase isUserAdminAsync db now token email)
    as [-> | ->];
    [reflexivity|].
  now apply lookup_delete_ne.
Qed.

Lemma magic_link_verify_frame_witness :
  fst (verifyAdminMagicLink Js.asciiTrim Js.asciiToLowerCase everybodyIsAdmin
         twoLinks 5 "tok-1" "ops@fund.example")
    !! "tok-2"
  = twoLinks !! "tok-2".
Proof.
  refine (magic_link_verify_frame Js.asciiTrim Js.asciiToLowerCase
            everybodyIsAdmin twoLinks 5 "tok-1"
            "ops@fund.example" "tok-2" _).
  discriminate.
Defined.

End MagicLinkFrame.
